(** * News-Sites-Web-Scrapper: the fetch / normalise / dedupe pipeline

    A shallow embedding of the Python sources

      - [src/utils/validators.py]   ([clean_text], [normalize_url], [parse_date])
      - [src/models/article.py]     ([Article], [ArticleCollection])
      - [src/utils/rate_limiter.py] ([DomainThrottler])
      - [src/sources/kenya.py], [src/sources/usa.py] ([scrape], region runners)
      - [src/scraper.py]            ([NewsScraper.scrape_all])
      - [src/exporters/csv_exporter.py] ([CSVExporter._article_to_row])

    followed by the properties of the specification, each proved or refuted
    on these definitions.

    Conventions.  A Python [str] is a list of Unicode code points
    ([list N]); [None] is [option]; a Python [int] is [Z]; a [dict] is a
    [gmap]; a [set] is a [gset].  Calls into third-party or standard
    libraries whose behaviour is not in the repository ([urljoin],
    [urlparse], [dateutil], [strptime], [feedparser], [requests],
    [BeautifulSoup]) are fields of environment records, so every theorem
    holds for whatever those libraries compute. *)

From Stdlib Require Import ZArith NArith List String Ascii Bool Lia.
From stdpp Require Import base tactics option list gmap.

Local Open Scope N_scope.

(* ===================================================================== *)
(** * Part I.  Definitions                                                *)
(* ===================================================================== *)

(* --------------------------------------------------------------------- *)
(** ** Python strings                                                     *)
(* --------------------------------------------------------------------- *)

Module PyStr.

(** A [str] is a sequence of code points. *)
Abbreviation char := N (only parsing).
Abbreviation str := (list N) (only parsing).

(** An ASCII literal of the source, as a [str]. *)
Definition lit (s : string) : str :=
  List.map N_of_ascii (list_ascii_of_string s).

(** [len(s)], as a Python [int]. *)
Definition len (s : str) : Z := Z.of_nat (length s).

(** [str.isspace] on one code point: the characters [str.split()],
    [str.strip()] and the regular expression class [\s] treat as
    whitespace. *)
Definition isspace (c : char) : bool :=
  ((9 <=? c) && (c <=? 13)) || ((28 <=? c) && (c <=? 32))
  || (c =? 133) || (c =? 160) || (c =? 5760)
  || ((8192 <=? c) && (c <=? 8202))
  || (c =? 8232) || (c =? 8233) || (c =? 8239) || (c =? 8287)
  || (c =? 12288).

(** [s.split()]: the maximal runs of non-whitespace characters, in order. *)
Fixpoint split (s : str) : list str :=
  match s with
  | [] => []
  | c :: s' =>
      if isspace c then split s'
      else match s' with
           | [] => [[c]]
           | c' :: _ =>
               if isspace c' then [c] :: split s'
               else match split s' with
                    | w :: ws => (c :: w) :: ws
                    | [] => [[c]]
                    end
           end
  end.

(** [sep.join(parts)]. *)
Fixpoint join (sep : str) (parts : list str) : str :=
  match parts with
  | [] => []
  | [w] => w
  | w :: ws => w ++ sep ++ join sep ws
  end.

(** [s.lstrip()], [s.rstrip()], [s.strip()]. *)
Fixpoint lstrip (s : str) : str :=
  match s with
  | c :: s' => if isspace c then lstrip s' else s
  | [] => []
  end.

Definition rstrip (s : str) : str := rev (lstrip (rev s)).

Definition strip (s : str) : str := rstrip (lstrip s).

(** [s.startswith(p)]. *)
Fixpoint startswith (p s : str) : bool :=
  match p, s with
  | [], _ => true
  | a :: p', b :: s' => (a =? b) && startswith p' s'
  | _ :: _, [] => false
  end.

(** [s.replace(old, new)] for a non-empty [old] (all call sites): scan
    from the left, replace each occurrence and resume after it.  [skip]
    counts the characters of the occurrence still to be dropped. *)
Fixpoint replace_from (old new : str) (s : str) (skip : nat) : str :=
  match s with
  | [] => []
  | c :: s' =>
      match skip with
      | S k => replace_from old new s' k
      | O =>
          if startswith old s
          then new ++ replace_from old new s' (length old - 1)
          else c :: replace_from old new s' 0
      end
  end.

Definition replace (old new s : str) : str := replace_from old new s 0.

(** Python slices [s[:n]] and [s[n:]] for an arbitrary [int] [n]: a
    negative [n] counts from the end. *)
Definition slice_to {A} (s : list A) (n : Z) : list A :=
  if (n <? 0)%Z then firstn (Z.to_nat (Z.of_nat (length s) + n)) s
  else firstn (Z.to_nat n) s.

Definition slice_from {A} (s : list A) (n : Z) : list A :=
  if (n <? 0)%Z then skipn (Z.to_nat (Z.of_nat (length s) + n)) s
  else skipn (Z.to_nat n) s.

(** Truthiness of an optional string: [None] and [''] are falsy. *)
Definition truthy (o : option str) : bool :=
  match o with
  | Some (_ :: _) => true
  | _ => false
  end.

(** [str.encode()] (UTF-8).  Lone surrogates cannot be encoded
    ([UnicodeEncodeError]), which is [None] here. *)
Definition utf8_char (c : char) : option (list N) :=
  if c <? 128 then Some [c]
  else if c <? 2048 then
    Some [192 + c / 64; 128 + c mod 64]
  else if (55296 <=? c) && (c <=? 57343) then None
  else if c <? 65536 then
    Some [224 + c / 4096; 128 + (c / 64) mod 64; 128 + c mod 64]
  else
    Some [240 + c / 262144; 128 + (c / 4096) mod 64;
          128 + (c / 64) mod 64; 128 + c mod 64].

Fixpoint encode (s : str) : option (list N) :=
  match s with
  | [] => Some []
  | c :: s' =>
      match utf8_char c, encode s' with
      | Some bs, Some rest => Some (bs ++ rest)
      | _, _ => None
      end
  end.



(** No whitespace at either end. *)
Definition trimmed (s : str) : bool :=
  match s with
  | [] => true
  | c :: _ => negb (isspace c) && negb (isspace (List.last s c))
  end.

(** A word: a non-empty text without whitespace. *)
Definition is_word (w : str) : bool :=
  match w with
  | [] => false
  | _ => forallb (fun c => negb (isspace c)) w
  end.

(** The characters of a text that are not whitespace, in order. *)
Abbreviation visible := (List.filter (fun c => negb (isspace c))).

End PyStr.

(* --------------------------------------------------------------------- *)
(** ** Exceptions                                                         *)
(* --------------------------------------------------------------------- *)

Module Py.

(** The exceptions the modelled code can meet.  [Error] stands for any
    other exception, identified by its message. *)
Inductive exn : Type :=
  | OverflowError
  | ValueError
  | UnicodeEncodeError
  | ValidationError
  | Error (msg : list N).

(** The outcome of a call: a value, or an exception that propagates to
    the caller. *)
Inductive result (A : Type) : Type :=
  | Ok (a : A)
  | Raise (e : exn).

Arguments Ok {A} a.
Arguments Raise {A} e.

Definition bind {A B} (r : result A) (k : A -> result B) : result B :=
  match r with
  | Ok a => k a
  | Raise e => Raise e
  end.

Definition raises {A} (r : result A) : bool :=
  match r with
  | Ok _ => false
  | Raise _ => true
  end.

End Py.

(* --------------------------------------------------------------------- *)
(** ** The regular expressions of [validators.py]                         *)
(* --------------------------------------------------------------------- *)

(** The patterns of the source are concatenations of single-character
    matchers, each optionally under [?], [*] or [+], with the anchors [^]
    and [$] and one capturing group.  Matching is the backtracking,
    greedy matching of Python's [re], always under [re.IGNORECASE]. *)
Module Regex.
Import PyStr.

Inductive atom : Type :=
  | Chr (c : char)   (** a literal character *)
  | Space            (** [\s] *)
  | Digit.           (** [\d] *)

Inductive item : Type :=
  | One (a : atom)   (** [a]  *)
  | Opt (a : atom)   (** [a?] *)
  | Star (a : atom)  (** [a*] *)
  | Plus (a : atom)  (** [a+] *)
  | Bol              (** [^]  *)
  | Eol              (** [$]  *)
  | GOpen            (** [(]  *)
  | GClose.          (** [)]  *)

Abbreviation pattern := (list item) (only parsing).

(** The simple lower-case mapping, on the code points it sends to an
    ASCII letter: the upper-case ASCII letters, U+0130 and U+212A. *)
Definition tolower (x : char) : char :=
  if (65 <=? x) && (x <=? 90) then x + 32
  else if x =? 304 then 105
  else if x =? 8490 then 107
  else x.

(** A literal ASCII character [c] of a pattern against a subject
    character [x] under [re.IGNORECASE]: equal after lower-casing, or
    one of the two extra equivalences of [re] (i ~ U+0131, s ~ U+017F). *)
Definition chr_match (c x : char) : bool :=
  let lo := tolower c in
  let y := tolower x in
  (y =? lo) || ((lo =? 105) && (y =? 305)) || ((lo =? 115) && (y =? 383)).

(** First code point of every block of ten Unicode decimal digits (general
    category Nd, Unicode 14): the characters of [\d] and of [int()]. *)
Definition decimal_zeros : list N :=
  [48; 1632; 1776; 1984; 2406; 2534; 2662; 2790; 2918; 3046; 3174; 3302;
   3430; 3558; 3664; 3792; 3872; 4160; 4240; 6112; 6160; 6470; 6608; 6784;
   6800; 6992; 7088; 7232; 7248; 42528; 43216; 43264; 43472; 43504; 43600;
   44016; 65296; 66720; 68912; 69734; 69872; 69942; 70096; 70384; 70736;
   70864; 71248; 71360; 71472; 71904; 72016; 72784; 73040; 73120; 92768;
   92864; 93008; 120782; 120792; 120802; 120812; 120822; 123200; 123632;
   125264; 130032].

(** The decimal value of a digit character, if it is one. *)
Definition decimal_value (c : char) : option Z :=
  match List.find (fun z => (z <=? c) && (c <? z + 10)) decimal_zeros with
  | Some z => Some (Z.of_N (c - z))
  | None => None
  end.

Definition atom_match (a : atom) (x : char) : bool :=
  match a with
  | Chr c => chr_match c x
  | Space => isspace x
  | Digit => match decimal_value x with Some _ => true | None => false end
  end.

(** The result of a match: the unconsumed input and the text of the
    closed groups, the most recent first. *)
Abbreviation mresult := (option (str * list str)) (only parsing).

(** Greedy [a*] followed by the continuation [k]: the longest run first,
    then shorter ones.  The flag tells [k] whether the position is still
    the start of the subject. *)
Fixpoint star (a : atom) (k : bool -> str -> mresult) (bol : bool) (s : str)
  : mresult :=
  match s with
  | c :: s' =>
      if atom_match a c then
        match star a k false s' with
        | Some r => Some r
        | None => k bol s
        end
      else k bol s
  | [] => k bol s
  end.

(** Match pattern [p] at the head of [s].  [opens] holds the inputs at
    the open parentheses, [caps] the groups closed so far. *)
Fixpoint match_here (p : pattern) (opens caps : list str) (bol : bool)
  (s : str) {struct p} : mresult :=
  match p with
  | [] => Some (s, caps)
  | One a :: p' =>
      match s with
      | c :: s' =>
          if atom_match a c then match_here p' opens caps false s' else None
      | [] => None
      end
  | Opt a :: p' =>
      match s with
      | c :: s' =>
          if atom_match a c then
            match match_here p' opens caps false s' with
            | Some r => Some r
            | None => match_here p' opens caps bol s
            end
          else match_here p' opens caps bol s
      | [] => match_here p' opens caps bol s
      end
  | Star a :: p' => star a (match_here p' opens caps) bol s
  | Plus a :: p' =>
      match s with
      | c :: s' =>
          if atom_match a c then star a (match_here p' opens caps) false s'
          else None
      | [] => None
      end
  | Bol :: p' => if bol then match_here p' opens caps bol s else None
  | Eol :: p' =>
      match s with
      | [] => match_here p' opens caps bol s
      | [10] => match_here p' opens caps bol s
      | _ => None
      end
  | GOpen :: p' => match_here p' (s :: opens) caps bol s
  | GClose :: p' =>
      match opens with
      | start :: opens' =>
          match_here p' opens'
            (firstn (length start - length s) start :: caps) bol s
      | [] => match_here p' opens caps bol s
      end
  end.

(** [re.search(p, s)]: the match at the leftmost position that has one.
    Returns the groups (here: the text of group 1 when there is one). *)
Fixpoint search_from (p : pattern) (bol : bool) (s : str) : option (list str) :=
  match match_here p [] [] bol s with
  | Some (_, caps) => Some caps
  | None =>
      match s with
      | [] => None
      | _ :: s' => search_from p false s'
      end
  end.

Definition search (p : pattern) (s : str) : option (list str) :=
  search_from p true s.

(** [re.sub(p, repl, s)] for a literal replacement: the non-overlapping
    matches from the left are replaced.  [skip] counts the characters of
    the current match still to be dropped. *)
Fixpoint sub_from (p : pattern) (repl : str) (bol : bool) (s : str)
  (skip : nat) : str :=
  match s with
  | [] =>
      match skip, match_here p [] [] bol [] with
      | O, Some _ => repl
      | _, _ => []
      end
  | c :: s' =>
      match skip with
      | S k => sub_from p repl false s' k
      | O =>
          match match_here p [] [] bol s with
          | Some (rest, _) =>
              match (length s - length rest)%nat with
              | O => repl ++ c :: sub_from p repl false s' 0
              | S k => repl ++ sub_from p repl false s' k
              end
          | None => c :: sub_from p repl false s' 0
          end
      end
  end.

Definition sub (p : pattern) (repl s : str) : str := sub_from p repl true s 0.

(** The literal text [w] as a pattern. *)
Definition text (w : string) : pattern :=
  List.map (fun c => One (Chr c)) (lit w).

End Regex.

(* --------------------------------------------------------------------- *)
(** ** [datetime] and the libraries around the validators                 *)
(* --------------------------------------------------------------------- *)

Module PyTime.
Import Py.
Local Open Scope Z_scope.

(** A naive [datetime] is the number of microseconds since
    0001-01-01T00:00:00; [datetime.max] is the last microsecond of the
    year 9999.  Time zones are not modelled. *)
Abbreviation datetime := Z (only parsing).

Definition us_per_second : Z := 1000000.
Definition us_per_minute : Z := 60 * us_per_second.
Definition us_per_hour : Z := 60 * us_per_minute.
Definition us_per_day : Z := 24 * us_per_hour.

(** [date.max.toordinal()] days are representable. *)
Definition max_us : Z := 3652059 * us_per_day.

Definition valid (t : datetime) : bool := (0 <=? t) && (t <? max_us).

(** [timedelta(...)] of a total of [us] microseconds: an [OverflowError]
    when the normalised number of days exceeds 999999999 in magnitude. *)
Definition timedelta (us : Z) : result Z :=
  let days := us / us_per_day in
  if (-999999999 <=? days) && (days <=? 999999999) then Ok us
  else Raise OverflowError.

(** [t - delta]: an [OverflowError] when the result is not a
    representable [datetime]. *)
Definition minus (t : datetime) (delta : Z) : result datetime :=
  if valid (t - delta) then Ok (t - delta) else Raise OverflowError.

(** [t.replace(hour=0, minute=0, second=0)]; the microsecond is kept. *)
Definition at_midnight (t : datetime) : datetime :=
  t - t mod us_per_day + t mod us_per_second.

End PyTime.

(** The library calls of the validators.  [None] stands for the
    exception the source catches at that call. *)
Module Libs.
Import Py.

Record DateLib : Type := {
  (** [datetime.now()] at the time of the call *)
  now : Z;
  (** [dateutil.parser.parse(s, fuzzy=True)]; [None] when it raises *)
  dateutil_parse : list N -> option Z;
  (** [datetime.strptime(s, fmt)]; [None] on [ValueError] *)
  strptime : list N -> list N -> option Z
}.

Record UrlLib : Type := {
  (** [urllib.parse.urljoin(base, url)] *)
  urljoin : list N -> list N -> result (list N);
  (** [urllib.parse.urlparse(url).netloc] *)
  urlparse_netloc : list N -> result (list N)
}.

End Libs.

(* --------------------------------------------------------------------- *)
(** ** [src/utils/validators.py]                                          *)
(* --------------------------------------------------------------------- *)

Module Validators.
Import PyStr Regex Py PyTime Libs.

(** [patterns_to_remove]:
    [\s*\[\.\.\.?\]], [\s*Read more\.?], [\s*Continue reading\.?],
    [\s*Click here\.?], [^\s*Advertisement\s*$], [\s*Share this:?\s*]. *)
Definition patterns_to_remove : list pattern :=
  [ [Star Space] ++ text "[.." ++ [Opt (Chr 46)] ++ text "]";
    [Star Space] ++ text "Read more" ++ [Opt (Chr 46)];
    [Star Space] ++ text "Continue reading" ++ [Opt (Chr 46)];
    [Star Space] ++ text "Click here" ++ [Opt (Chr 46)];
    [Bol; Star Space] ++ text "Advertisement" ++ [Star Space; Eol];
    [Star Space] ++ text "Share this" ++ [Opt (Chr 58); Star Space] ].

(** [html_entities], in the order of the dictionary; the last two
    replacements are U+2014 and U+2013. *)
Definition html_entities : list (str * str) :=
  [ (lit "&nbsp;", lit " "); (lit "&amp;", lit "&"); (lit "&lt;", lit "<");
    (lit "&gt;", lit ">"); (lit "&quot;", [34]); (lit "&#39;", lit "'");
    (lit "&mdash;", [8212]); (lit "&ndash;", [8211]) ].

(** [' '.join(text.split())]. *)
Definition collapse (t : str) : str := join (lit " ") (PyStr.split t).

Definition remove_patterns (t : str) : str :=
  fold_left (fun t p => sub p [] t) patterns_to_remove t.

Definition decode_entities (t : str) : str :=
  fold_left (fun t er => replace (fst er) (snd er) t) html_entities t.

(** [clean_text(text, max_length=None)]. *)
Definition clean_text (text : option str) (max_length : option Z) : str :=
  match text with
  | None | Some [] => []
  | Some t =>
      let t := collapse t in
      let t := remove_patterns t in
      let t := decode_entities t in
      let t := strip t in
      match max_length with
      | Some m =>
          if negb (m =? 0)%Z && (len t >? m)%Z
          then slice_to t (m - 3) ++ lit "..."
          else t
      | None => t
      end
  end.


(** [normalize_url(url, base_url=None)]. *)
Definition force_https (u : str) : str :=
  if startswith (lit "http://") u then lit "https://" ++ slice_from u 7
  else u.

(** [url.startswith(('http://', 'https://'))]. *)
Definition has_http_prefix (u : str) : bool :=
  startswith (lit "http://") u || startswith (lit "https://") u.

Definition normalize_url (U : UrlLib) (url base_url : option str)
  : result (option str) :=
  match url with
  | None | Some [] => Ok None
  | Some u =>
      let u := strip u in
      let joined :=
        match base_url with
        | Some (b :: base) =>
            if negb (has_http_prefix u) then urljoin U (b :: base) u
            else Ok u
        | _ => Ok u
        end in
      bind joined (fun u => Ok (Some (force_https u)))
  end.

(** [int(digits)] for a run of decimal digit characters. *)
Definition int_of_digits (ds : str) : Z :=
  fold_left
    (fun acc c => match decimal_value c with
                  | Some v => 10 * acc + v
                  | None => acc
                  end)%Z
    ds 0%Z.

(** The keys of [relative_patterns], in the order of the dictionary. *)
Inductive relative : Type :=
  | MinutesAgo | HoursAgo | DaysAgo | JustNow | Today | Yesterday.

Definition ago (unit : string) : pattern :=
  [GOpen; Plus Digit; GClose; Star Space] ++ text unit
    ++ [Opt (Chr 115); Star Space] ++ text "ago".

Definition relative_patterns : list (pattern * relative) :=
  [ (ago "minute", MinutesAgo);
    (ago "hour", HoursAgo);
    (ago "day", DaysAgo);
    (text "just" ++ [Star Space] ++ text "now", JustNow);
    (text "today", Today);
    (text "yesterday", Yesterday) ].

(** The handler of a relative pattern, applied to the groups of its
    match. *)
Definition handler (D : DateLib) (r : relative) (groups : list str)
  : result Z :=
  let n := int_of_digits (hd [] groups) in
  match r with
  | MinutesAgo => bind (timedelta (n * us_per_minute)%Z) (minus (now D))
  | HoursAgo => bind (timedelta (n * us_per_hour)%Z) (minus (now D))
  | DaysAgo => bind (timedelta (n * us_per_day)%Z) (minus (now D))
  | JustNow => Ok (now D)
  | Today => Ok (at_midnight (now D))
  | Yesterday =>
      bind (timedelta us_per_day)
           (fun d => bind (minus (now D) d) (fun t => Ok (at_midnight t)))
  end.

(** The first relative pattern found in a string, with its groups. *)
Fixpoint first_match (ps : list (pattern * relative)) (s : str)
  : option (relative * list str) :=
  match ps with
  | [] => None
  | (p, r) :: ps' =>
      match search p s with
      | Some groups => Some (r, groups)
      | None => first_match ps' s
      end
  end.

(** The loop over [relative_patterns]: the handler of the first pattern
    found in the string, called outside any [try]. *)
Fixpoint first_relative (D : DateLib) (ps : list (pattern * relative))
  (s : str) : option (result Z) :=
  match ps with
  | [] => None
  | (p, r) :: ps' =>
      match search p s with
      | Some groups => Some (handler D r groups)
      | None => first_relative D ps' s
      end
  end.

Definition date_formats : list str :=
  [ lit "%Y-%m-%dT%H:%M:%S"; lit "%Y-%m-%dT%H:%M:%SZ";
    lit "%Y-%m-%d %H:%M:%S"; lit "%Y-%m-%d"; lit "%d %B %Y";
    lit "%B %d, %Y"; lit "%d/%m/%Y"; lit "%m/%d/%Y"; lit "%d-%m-%Y" ].

(** The loop over [date_formats]: the first format that parses. *)
Fixpoint first_format (D : DateLib) (fmts : list str) (s : str) : option Z :=
  match fmts with
  | [] => None
  | fmt :: fmts' =>
      match strptime D s fmt with
      | Some t => Some t
      | None => first_format D fmts' s
      end
  end.

(** [parse_date(date_string)]. *)
Definition parse_date (D : DateLib) (date_string : option str)
  : result (option Z) :=
  match date_string with
  | None | Some [] => Ok None
  | Some s =>
      let s := strip s in
      match first_relative D relative_patterns s with
      | Some r => bind r (fun t => Ok (Some t))
      | None =>
          match dateutil_parse D s with
          | Some t => Ok (Some t)
          | None => Ok (first_format D date_formats s)
          end
      end
  end.

(** [sanitize_filename(filename)].  [invalid_chars] holds nine
    characters: less-than, greater-than, colon, the double quote (code 34),
    slash, backslash, vertical bar, question mark and asterisk. *)
Definition invalid_chars : str := lit "<>:" ++ [34] ++ lit "/\|?*".

Definition sanitize_filename (filename : str) : str :=
  let filename :=
    fold_left (fun f c => replace [c] [] f) invalid_chars filename in
  let filename := replace (lit " ") (lit "_") filename in
  if (len filename >? 200)%Z then slice_to filename 200 else filename.

End Validators.

(* --------------------------------------------------------------------- *)
(** ** [hashlib.md5]                                                      *)
(* --------------------------------------------------------------------- *)

(** The MD5 digest of RFC 1321 on a list of bytes, in hexadecimal. *)
Module MD5.

Definition add32 (x y : N) : N := (x + y) mod 4294967296.
Definition not32 (x : N) : N := N.lxor x 4294967295.
Definition rotl32 (x n : N) : N :=
  N.lor (N.shiftl x n mod 4294967296) (N.shiftr x (32 - n)).

Definition shifts : list N :=
  [7; 12; 17; 22; 7; 12; 17; 22; 7; 12; 17; 22; 7; 12; 17; 22;
   5; 9; 14; 20; 5; 9; 14; 20; 5; 9; 14; 20; 5; 9; 14; 20;
   4; 11; 16; 23; 4; 11; 16; 23; 4; 11; 16; 23; 4; 11; 16; 23;
   6; 10; 15; 21; 6; 10; 15; 21; 6; 10; 15; 21; 6; 10; 15; 21].

(** [K[i] = floor(2^32 * |sin (i + 1)|)]. *)
Definition K : list N :=
  [3614090360; 3905402710; 606105819; 3250441966; 4118548399; 1200080426;
   2821735955; 4249261313; 1770035416; 2336552879; 4294925233; 2304563134;
   1804603682; 4254626195; 2792965006; 1236535329; 4129170786; 3225465664;
   643717713; 3921069994; 3593408605; 38016083; 3634488961; 3889429448;
   568446438; 3275163606; 4107603335; 1163531501; 2850285829; 4243563512;
   1735328473; 2368359562; 4294588738; 2272392833; 1839030562; 4259657740;
   2763975236; 1272893353; 4139469664; 3200236656; 681279174; 3936430074;
   3572445317; 76029189; 3654602809; 3873151461; 530742520; 3299628645;
   4096336452; 1126891415; 2878612391; 4237533241; 1700485571; 2399980690;
   4293915773; 2240044497; 1873313359; 4264355552; 2734768916; 1309151649;
   4149444226; 3174756917; 718787259; 3951481745].

(** Little-endian bytes of a word, and back. *)
Fixpoint le_bytes (n : nat) (x : N) : list N :=
  match n with
  | O => []
  | S n' => x mod 256 :: le_bytes n' (x / 256)
  end.

Fixpoint le_words (bs : list N) : list N :=
  match bs with
  | b0 :: b1 :: b2 :: b3 :: rest =>
      (b0 + 256 * (b1 + 256 * (b2 + 256 * b3))) :: le_words rest
  | _ => []
  end.

(** Padding: the bit 1, zeros up to 56 modulo 64, the bit length on 64 bits. *)
Definition pad (msg : list N) : list N :=
  let n := length msg in
  msg ++ [128] ++ repeat 0 ((119 - n mod 64) mod 64)%nat
      ++ le_bytes 8 ((8 * N.of_nat n) mod 18446744073709551616).

Definition word_state : Type := N * N * N * N.

(** One of the 64 operations on the block [m]. *)
Definition step (m : list N) (st : word_state) (i : nat) : word_state :=
  let '(a, b, c, d) := st in
  let f :=
    if (i <? 16)%nat then N.lor (N.land b c) (N.land (not32 b) d)
    else if (i <? 32)%nat then N.lor (N.land d b) (N.land (not32 d) c)
    else if (i <? 48)%nat then N.lxor b (N.lxor c d)
    else N.lxor c (N.lor b (not32 d)) in
  let g :=
    if (i <? 16)%nat then i
    else if (i <? 32)%nat then ((5 * i + 1) mod 16)%nat
    else if (i <? 48)%nat then ((3 * i + 5) mod 16)%nat
    else ((7 * i) mod 16)%nat in
  let f' := add32 (add32 (add32 f a) (nth i K 0)) (nth g m 0) in
  (d, add32 b (rotl32 f' (nth i shifts 0)), b, c).

Definition block (st : word_state) (m : list N) : word_state :=
  let '(a0, b0, c0, d0) := st in
  let '(a, b, c, d) := fold_left (step m) (seq 0 64) st in
  (add32 a0 a, add32 b0 b, add32 c0 c, add32 d0 d).

Definition digest (msg : list N) : list N :=
  let ws := le_words (pad msg) in
  let blocks :=
    List.map (fun i => firstn 16 (skipn (16 * i) ws))
             (seq 0 (length ws / 16)) in
  let '(a, b, c, d) :=
    fold_left block blocks
      (1732584193, 4023233417, 2562383102, 271733878) in
  le_bytes 4 a ++ le_bytes 4 b ++ le_bytes 4 c ++ le_bytes 4 d.

Definition hex_digit (x : N) : N := if x <? 10 then 48 + x else 87 + x.

(** [hashlib.md5(msg).hexdigest()]. *)
Definition hexdigest (msg : list N) : list N :=
  flat_map (fun b => [hex_digit (b / 16); hex_digit (b mod 16)]) (digest msg).

End MD5.

(* --------------------------------------------------------------------- *)
(** ** [src/models/article.py]                                            *)
(* --------------------------------------------------------------------- *)

Module ArticleModel.
Import PyStr Py.

(** The keyword arguments of [Article(...)].  [None] is an argument left
    out (or passed as [None]). *)
Record ArticleData : Type := {
  d_id : option str;
  d_title : str;
  d_url : str;
  d_summary : option str;
  d_content : option str;
  d_author : option str;
  d_published_date : option Z;
  d_scraped_at : option Z;
  d_source_name : str;
  d_source_url : str;
  d_region : str;
  d_categories : option (list str);
  d_image_url : option str
}.

(** A constructed [Article]. *)
Record Article : Type := {
  id : str;
  title : str;
  url : str;
  summary : option str;
  content : option str;
  author : option str;
  published_date : option Z;
  scraped_at : Z;
  source_name : str;
  source_url : str;
  region : str;
  categories : list str;
  image_url : option str
}.

(** [v.lower() == w] for a lower-case ASCII word [w]: character by
    character, [x.lower()] is the letter [c] when [x] is [c], its
    upper-case form, or U+212A for [k]. *)
Definition lower_is_char (c x : char) : bool :=
  (x =? c) || ((65 <=? x) && (x <=? 90) && (x + 32 =? c))
  || ((c =? 107) && (x =? 8490)).

Fixpoint lower_is (w v : str) : bool :=
  match w, v with
  | [], [] => true
  | c :: w', x :: v' => lower_is_char c x && lower_is w' v'
  | _, _ => false
  end.

(** The validator of [title] and of [summary]:
    [' '.join(v.strip().split())] when [v] is not empty. *)
Definition clean_field (v : str) : str :=
  match v with
  | [] => v
  | _ => join (lit " ") (PyStr.split (strip v))
  end.

(** [validate_region]: the lower-cased region when it is one of
    [valid_regions], a [ValueError] otherwise. *)
Definition valid_regions : list str := [lit "kenya"; lit "usa"].

Definition validate_region (v : str) : option str :=
  List.find (fun w => lower_is w v) valid_regions.

(** The length constraints of the fields ([min_length], [max_length]). *)
Definition length_ok (lo hi : Z) (v : str) : bool :=
  (lo <=? len v)%Z && (len v <=? hi)%Z.

Definition opt_length_ok (hi : Z) (v : option str) : bool :=
  match v with
  | Some s => (len s <=? hi)%Z
  | None => true
  end.

(** [_generate_id]: the first 16 hexadecimal digits of the MD5 digest of
    the UTF-8 text [url + title]. *)
Definition _generate_id (url title : str) : result str :=
  match encode (url ++ title) with
  | Some bytes => Ok (firstn 16 (MD5.hexdigest bytes))
  | None => Raise UnicodeEncodeError
  end.

(** The constructor [Article] at the time [now]: field validation in the order
    of the declarations, then the identifier. *)
Definition new_article (now : Z) (d : ArticleData) : result Article :=
  if negb (length_ok 1 500 (d_title d)) then Raise ValidationError
  else if negb (opt_length_ok 2000 (d_summary d)) then Raise ValidationError
  else if negb (opt_length_ok 200 (d_author d)) then Raise ValidationError
  else
    match validate_region (d_region d) with
    | None => Raise ValidationError
    | Some reg =>
        let t := clean_field (d_title d) in
        let mk (i : str) : Article :=
          {| id := i;
             title := t;
             url := d_url d;
             summary := option_map clean_field (d_summary d);
             content := d_content d;
             author := d_author d;
             published_date := d_published_date d;
             scraped_at := default now (d_scraped_at d);
             source_name := d_source_name d;
             source_url := d_source_url d;
             region := reg;
             categories := default [] (d_categories d);
             image_url := d_image_url d |} in
        if truthy (d_id d) then Ok (mk (default [] (d_id d)))
        else bind (_generate_id (d_url d) t) (fun i => Ok (mk i))
    end.

(** [Article.__eq__]: equality of the identifiers. *)
Definition article_eqb (a b : Article) : bool :=
  bool_decide (id a = id b).

(** [article in articles]. *)
Definition contains (articles : list Article) (a : Article) : bool :=
  existsb (fun x => article_eqb x a) articles.

Record ArticleCollection : Type := {
  articles : list Article;
  total_count : Z;
  c_scraped_at : Z;
  sources_scraped : list str;
  regions : list str
}.

Definition set_articles (c : ArticleCollection) (l : list Article)
  : ArticleCollection :=
  {| articles := l;
     total_count := Z.of_nat (length l);
     c_scraped_at := c_scraped_at c;
     sources_scraped := sources_scraped c;
     regions := regions c |}.

(** [ArticleCollection()] created at the time [now]. *)
Definition empty_collection (now : Z) : ArticleCollection :=
  {| articles := []; total_count := 0; c_scraped_at := now;
     sources_scraped := []; regions := [] |}.

(** [add_article]. *)
Definition add_article (c : ArticleCollection) (a : Article)
  : ArticleCollection :=
  if contains (articles c) a then c
  else set_articles c (articles c ++ [a]).

(** [add_articles]. *)
Definition add_articles (c : ArticleCollection) (l : list Article)
  : ArticleCollection :=
  fold_left add_article l c.

(** The loop of [deduplicate] over the remaining articles, with the set
    [seen] and the list [unique_articles] built so far. *)
Fixpoint dedup_loop (seen : gset (list N)) (unique : list Article)
  (l : list Article) : list Article :=
  match l with
  | [] => unique
  | a :: l' =>
      if bool_decide (id a ∈ seen) then dedup_loop seen unique l'
      else dedup_loop ({[ id a ]} ∪ seen) (unique ++ [a]) l'
  end.

(** [deduplicate]. *)
Definition deduplicate (c : ArticleCollection) : ArticleCollection :=
  set_articles c (dedup_loop ∅ [] (articles c)).

(** [get_by_region], [get_by_source]. *)
Definition get_by_region (c : ArticleCollection) (r : str) : list Article :=
  List.filter (fun a => bool_decide (region a = r)) (articles c).

Definition get_by_source (c : ArticleCollection) (s : str) : list Article :=
  List.filter (fun a => bool_decide (source_name a = s)) (articles c).

(** The mutating operations of a collection, as data, and a sequence of
    them applied in order. *)
Inductive operation : Type :=
  | AddArticle (a : Article)
  | AddArticles (l : list Article)
  | Deduplicate.

Definition apply_operation (c : ArticleCollection) (o : operation)
  : ArticleCollection :=
  match o with
  | AddArticle a => add_article c a
  | AddArticles l => add_articles c l
  | Deduplicate => deduplicate c
  end.

Definition apply_operations (c : ArticleCollection) (os : list operation)
  : ArticleCollection :=
  fold_left apply_operation os c.

(** [a.id == i]. *)
Definition has_id (i : str) (a : Article) : bool := bool_decide (id a = i).

(** The identifiers of a list of articles, and a lower-case hexadecimal
    digit. *)
Definition ids (l : list Article) : list str := List.map id l.

Definition is_hex_lower (c : char) : bool :=
  ((48 <=? c) && (c <=? 57)) || ((97 <=? c) && (c <=? 102)).

(** [get_by_category]. *)
Definition get_by_category (c : ArticleCollection) (cat : str) : list Article :=
  List.filter (fun a => existsb (fun x => bool_decide (x = cat)) (categories a))
              (articles c).

End ArticleModel.

(* --------------------------------------------------------------------- *)
(** ** [src/utils/rate_limiter.py]: [DomainThrottler]                     *)
(* --------------------------------------------------------------------- *)

Module RateLimiter.
Import PyStr Py Libs.
Local Open Scope Z_scope.

(** Times and delays are exact numbers of clock ticks (the rounding of
    floating point is not modelled). *)
Record DomainThrottler : Type := {
  default_delay : Z;
  domain_delays : gmap (list N) Z;
  last_request : gmap (list N) Z
}.

(** [DomainThrottler(default_delay)]. *)
Definition new_throttler (delay : Z) : DomainThrottler :=
  {| default_delay := delay; domain_delays := ∅; last_request := ∅ |}.

(** [set_domain_delay]. *)
Definition set_domain_delay (th : DomainThrottler) (domain : str) (delay : Z)
  : DomainThrottler :=
  {| default_delay := default_delay th;
     domain_delays := <[ domain := delay ]> (domain_delays th);
     last_request := last_request th |}.

(** [_get_domain]: the network location of the URL. *)
Definition _get_domain (U : UrlLib) (url : str) : result str :=
  urlparse_netloc U url.

(** [self.domain_delays.get(domain, self.default_delay)]. *)
Definition delay_for (th : DomainThrottler) (domain : str) : Z :=
  default (default_delay th) (domain_delays th !! domain).

(** The block [if domain in self.last_request: ...]: the argument of
    [time.sleep] for the delay, the clock reading [now] and the entry of
    the domain; 0 when [time.sleep] is not called. *)
Definition wait (delay now : Z) (entry : option Z) : Z :=
  match entry with
  | Some last =>
      let elapsed := now - last in
      if elapsed <? delay then delay - elapsed else 0
  | None => 0
  end.

Definition sleep_time (th : DomainThrottler) (domain : str) (now : Z) : Z :=
  wait (delay_for th domain) now (last_request th !! domain).

(** What one call of [throttle] did. *)
Record event : Type := {
  ev_domain : list N;   (** the key of the call *)
  ev_enter : Z;         (** the first reading of [time.time()] *)
  ev_sleep : Z;         (** the time asked of [time.sleep] *)
  ev_record : Z         (** the second reading, stored in [last_request] *)
}.

(** [throttle(url)] entered when the clock reads [clock].  Between the
    two readings of the clock the requested sleep elapses, and [late]
    more ticks.  Returns the throttler, the clock on return and the
    record of the call. *)
Definition throttle (U : UrlLib) (th : DomainThrottler) (url : str)
  (clock late : Z) : result (DomainThrottler * Z * event) :=
  bind (_get_domain U url) (fun domain =>
    let now := clock in
    let slept := sleep_time th domain now in
    let t := now + slept + late in
    Ok ({| default_delay := default_delay th;
           domain_delays := domain_delays th;
           last_request := <[ domain := t ]> (last_request th) |},
        t,
        {| ev_domain := domain; ev_enter := now;
           ev_sleep := slept; ev_record := t |})).

(** One call in a sequence: [gap] ticks pass before it is made. *)
Record call : Type := {
  gap : Z;
  call_url : list N;
  late : Z
}.

(** A sequence of calls on one throttler, from the clock reading
    [clock]; an exception of [urlparse] ends it. *)
Fixpoint run (U : UrlLib) (th : DomainThrottler) (clock : Z)
  (calls : list call) : result (DomainThrottler * Z * list event) :=
  match calls with
  | [] => Ok (th, clock, [])
  | c :: rest =>
      bind (throttle U th (call_url c) (clock + gap c) (late c))
        (fun r =>
           let '(th', clock', ev) := r in
           bind (run U th' clock' rest)
             (fun r' =>
                let '(th'', clock'', evs) := r' in
                Ok (th'', clock'', ev :: evs)))
  end.

(** The clock never runs backwards and a sleep lasts at least as long
    as asked. *)
Definition monotone (calls : list call) : Prop :=
  Forall (fun c => 0 <= gap c /\ 0 <= late c) calls.

(** The time recorded by the last call for [domain] among [evs]. *)
Fixpoint last_record (domain : str) (evs : list event) : option Z :=
  match evs with
  | [] => None
  | e :: evs' =>
      match last_record domain evs' with
      | Some t => Some t
      | None =>
          if bool_decide (ev_domain e = domain) then Some (ev_record e)
          else None
      end
  end.

(** The entry of [domain] once the calls [evs] are made on a throttler
    whose entries were [init]: it depends on the calls for [domain]
    alone. *)
Definition entry_after (init : gmap (list N) Z) (evs : list event)
  (domain : str) : option Z :=
  match last_record domain evs with
  | Some t => Some t
  | None => init !! domain
  end.

End RateLimiter.

(* --------------------------------------------------------------------- *)
(** ** [config/settings.py]                                               *)
(* --------------------------------------------------------------------- *)

Module Settings.
Import PyStr.
Local Open Scope Z_scope.

(** The integer entries of the [SETTINGS] dictionary. *)
Definition SETTINGS : list (string * Z) :=
  [ ("rate_limit_delay"%string, 2);
    ("timeout"%string, 30);
    ("max_retries"%string, 3);
    ("retry_delay"%string, 5);
    ("api_port"%string, 5000);
    ("schedule_interval_hours"%string, 6);
    ("max_articles_per_source"%string, 50);
    ("max_article_age_days"%string, 7) ].

(** [settings.get(key, dflt)]. *)
Fixpoint get (settings : list (string * Z)) (key : string) (dflt : Z) : Z :=
  match settings with
  | [] => dflt
  | (k, v) :: rest => if String.eqb k key then v else get rest key dflt
  end.

(** One entry of [KENYA_SOURCES] or [USA_SOURCES].  [None] is a key the
    dictionary does not have. *)
Record SourceConfig : Type := {
  name : str;
  url : str;
  rss_feed : option str;
  categories : option (list str);
  selectors : option (list (string * str));
  enabled : option bool
}.

End Settings.

(* --------------------------------------------------------------------- *)
(** ** [src/sources/kenya.py] and [src/sources/usa.py]                    *)
(* --------------------------------------------------------------------- *)

Module Sources.
Import PyStr Py Settings ArticleModel.

(** The scraper classes.  The four USA classes after [NPRScraper] are
    empty subclasses of [USAScraper]. *)
Inductive scraper_class : Type :=
  | KenyaScraper | NationAfricaScraper | StandardMediaScraper
  | USAScraper | CNNScraper | NPRScraper
  | NBCNewsScraper | CBSNewsScraper | ABCNewsScraper | FoxNewsScraper.

(** The class attribute [REGION]. *)
Definition REGION (c : scraper_class) : str :=
  match c with
  | KenyaScraper | NationAfricaScraper | StandardMediaScraper => lit "kenya"
  | _ => lit "usa"
  end.

(** A scraper instance: its class and the configuration it was given. *)
Record Scraper : Type := {
  class : scraper_class;
  config : SourceConfig
}.

(** The network and the parsers behind a scraper.  [entry] is a parsed
    feed entry and [element] a node of a parsed page.  The two
    per-item methods [_parse_rss_entry] and [_parse_article_element]
    catch every exception and return an optional [Article]; what they
    compute is left open here. *)
Record Web (entry element : Type) : Type := {
  (** [feedparser.parse(url).entries] *)
  feedparser_parse : str -> result (list entry);
  (** [self._parse_rss_entry(entry)] *)
  _parse_rss_entry : Scraper -> entry -> option Article;
  (** [self._fetch_page(url)], after its retries *)
  _fetch_page : str -> result (option str);
  (** [self._parse_html(html).select(selector)] *)
  select : str -> str -> result (list element);
  (** [self._parse_article_element(element)] *)
  _parse_article_element : Scraper -> element -> option Article
}.

Arguments feedparser_parse {entry element} _ _.
Arguments _parse_rss_entry {entry element} _ _ _.
Arguments _fetch_page {entry element} _ _.
Arguments select {entry element} _ _ _.
Arguments _parse_article_element {entry element} _ _ _.

(** The requests a scraper sends. *)
Inductive request : Type :=
  | GetFeed (u : str)
  | GetPage (u : str).

Definition is_page (r : request) : bool :=
  match r with
  | GetPage _ => true
  | GetFeed _ => false
  end.

(** [self.selectors.get(key, dflt)]. *)
Fixpoint lookup_selector (sels : list (string * str)) (key : string)
  (dflt : str) : str :=
  match sels with
  | [] => dflt
  | (k, v) :: rest =>
      if String.eqb k key then v else lookup_selector rest key dflt
  end.

Section Scrape.
Context {entry element : Type} (W : Web entry element).

(** The articles of the items that parse: the loop
    [if article: articles.append(article)]. *)
Definition collect {A} (parse : A -> option Article) (items : list A)
  : list Article :=
  omap parse items.

(** [_scrape_rss]; called only with a feed. *)
Definition _scrape_rss (s : Scraper) (feed : str)
  : list Article * list request :=
  match feedparser_parse W feed with
  | Ok entries => (collect (_parse_rss_entry W s) entries, [GetFeed feed])
  | Raise _ => ([], [GetFeed feed])
  end.

(** One listing page: fetch, select at most [cap] containers, parse
    each.  An exception leaves no article of the page. *)
Definition scrape_page (s : Scraper) (page selector : str) (cap : Z)
  : list Article :=
  match _fetch_page W page with
  | Ok (Some (h :: html)) =>
      match select W (h :: html) selector with
      | Ok elements =>
          collect (_parse_article_element W s) (slice_to elements cap)
      | Raise _ => []
      end
  | _ => []
  end.

(** [_scrape_html], by class. *)
Definition _scrape_html (s : Scraper) : list Article * list request :=
  let base := Settings.url (config s) in
  match class s with
  | NationAfricaScraper =>
      let sections :=
        [base ++ lit "/kenya/news"; base ++ lit "/kenya/business";
         base ++ lit "/kenya/sports"] in
      (flat_map
         (fun u => scrape_page s u (lit "article.story-card, .teaser-item") 15)
         sections,
       List.map GetPage sections)
  | NPRScraper =>
      let sections :=
        [base ++ lit "/sections/news/"; base ++ lit "/sections/politics/"] in
      (flat_map
         (fun u => scrape_page s u (lit ".story-wrap, article.item") 15)
         sections,
       List.map GetPage sections)
  | StandardMediaScraper =>
      (scrape_page s base (lit ".article-wrapper, .story-teaser, article") 30,
       [GetPage base])
  | CNNScraper =>
      (scrape_page s base (lit ".container__item, .card, .stack__cards") 30,
       [GetPage base])
  | _ =>
      (scrape_page s base
         (lookup_selector (default [] (selectors (config s)))
            "article_list" (lit "article")) 30,
       [GetPage base])
  end.

(** The outcome of "step 1" of [scrape]: the articles of the feed, none
    without a feed. *)
Definition rss_step (s : Scraper) : list Article * list request :=
  match rss_feed (config s) with
  | Some (c :: feed) => _scrape_rss s (c :: feed)
  | _ => ([], [])
  end.

(** [scrape]: the articles returned and the requests sent. *)
Definition scrape (s : Scraper) : list Article * list request :=
  let '(rss_articles, sent1) := rss_step s in
  let articles := rss_articles in
  let '(articles, sent2) :=
    match articles with
    | [] => let '(html_articles, sent) := _scrape_html s in
            (articles ++ html_articles, sent)
    | _ => (articles, [])
    end in
  (slice_to articles (get SETTINGS "max_articles_per_source" 50),
   sent1 ++ sent2).

End Scrape.

(** ['w' in name.lower()] for a lower-case ASCII word [w]. *)
Fixpoint prefix_lower (w v : str) : bool :=
  match w, v with
  | [], _ => true
  | c :: w', x :: v' => lower_is_char c x && prefix_lower w' v'
  | _ :: _, [] => false
  end.

Fixpoint in_lower (w v : str) : bool :=
  prefix_lower w v ||
  match v with
  | [] => false
  | _ :: v' => in_lower w v'
  end.

Definition is_enabled (c : SourceConfig) : bool := default true (enabled c).

(** [create_kenya_scrapers], [create_usa_scrapers] over the tables
    [KENYA_SOURCES] and [USA_SOURCES]. *)
Definition kenya_class (nm : str) : scraper_class :=
  if in_lower (lit "nation") nm then NationAfricaScraper
  else if in_lower (lit "standard") nm then StandardMediaScraper
  else KenyaScraper.

Definition usa_class (nm : str) : scraper_class :=
  if in_lower (lit "cnn") nm then CNNScraper
  else if in_lower (lit "npr") nm then NPRScraper
  else if in_lower (lit "nbc") nm then NBCNewsScraper
  else if in_lower (lit "cbs") nm then CBSNewsScraper
  else if in_lower (lit "abc") nm then ABCNewsScraper
  else if in_lower (lit "fox") nm then FoxNewsScraper
  else USAScraper.

Definition create_scrapers (pick : str -> scraper_class)
  (sources : list SourceConfig) : list Scraper :=
  List.map (fun c => {| class := pick (Settings.name c); config := c |})
           (List.filter is_enabled sources).

Definition create_kenya_scrapers := create_scrapers kenya_class.
Definition create_usa_scrapers := create_scrapers usa_class.

(** The interface of [BaseScraper]: a call of [scraper.scrape()] returns
    articles or raises. *)
Class Scrapes (S : Type) : Type := call_scrape : S -> result (list Article).

(** The loop of [scrape_kenya_news] and [scrape_usa_news] over the
    scrapers: the articles gathered and the messages of
    [logger.error].  An exception of one scraper is logged and the loop
    goes on. *)
Fixpoint scrape_loop {S} `{Scrapes S} (scrapers : list S)
  : list Article * list exn :=
  match scrapers with
  | [] => ([], [])
  | s :: rest =>
      let '(more, logged) := scrape_loop rest in
      match call_scrape s with
      | Ok arts => (arts ++ more, logged)
      | Raise e => (more, e :: logged)
      end
  end.

(** The articles of the scrapers that return, and the exceptions of
    those that raise, in the order of the scrapers. *)
Definition returned {S} `{Scrapes S} (scrapers : list S) : list Article :=
  flat_map (fun s => match call_scrape s with
                     | Ok arts => arts
                     | Raise _ => []
                     end) scrapers.

Definition raised {S} `{Scrapes S} (scrapers : list S) : list exn :=
  flat_map (fun s => match call_scrape s with
                     | Ok _ => []
                     | Raise e => [e]
                     end) scrapers.

End Sources.

(* --------------------------------------------------------------------- *)
(** ** [src/scraper.py]: [NewsScraper]                                    *)
(* --------------------------------------------------------------------- *)

Module Orchestrator.
Import PyStr Py ArticleModel Sources.

(** [self.stats].  An entry of [errors] is the exception whose [str(e)]
    was appended. *)
Record Stats : Type := {
  total_articles : Z;
  by_region : gmap (list N) Z;
  by_source : gmap (list N) Z;
  errors : list exn;
  start_time : option Z;
  end_time : option Z
}.

(** The state of a [NewsScraper]: its collection, its statistics, and
    the exceptions written to the log at level ERROR. *)
Record NewsScraper : Type := {
  collection : ArticleCollection;
  stats : Stats;
  logged : list exn
}.

Definition empty_stats : Stats :=
  {| total_articles := 0; by_region := ∅; by_source := ∅; errors := [];
     start_time := None; end_time := None |}.

(** [NewsScraper()] created at the time [now]. *)
Definition new_scraper (now : Z) : NewsScraper :=
  {| collection := empty_collection now; stats := empty_stats; logged := [] |}.

(** Methods run on the state and return a value or raise; the state
    reached before an exception stays. *)
Definition M (A : Type) : Type := NewsScraper -> result A * NewsScraper.

Definition ret {A} (a : A) : M A := fun ns => (Ok a, ns).

Definition raise {A} (e : exn) : M A := fun ns => (Raise e, ns).

Definition mbind {A B} (m : M A) (k : A -> M B) : M B :=
  fun ns =>
    match m ns with
    | (Ok a, ns') => k a ns'
    | (Raise e, ns') => (Raise e, ns')
    end.

(** [try: body except Exception as e: handler(e)]. *)
Definition try_except {A} (body : M A) (handler : exn -> M A) : M A :=
  fun ns =>
    match body ns with
    | (Ok a, ns') => (Ok a, ns')
    | (Raise e, ns') => handler e ns'
    end.

Notation "x <- m ;; k" := (mbind m (fun x => k))
  (at level 100, m at next level, right associativity).
Notation "m ;;; k" := (mbind m (fun _ => k))
  (at level 100, right associativity).

Definition modify_stats (f : Stats -> Stats) : M unit :=
  fun ns =>
    (Ok tt, {| collection := collection ns; stats := f (stats ns);
               logged := logged ns |}).

Definition modify_collection (f : ArticleCollection -> ArticleCollection)
  : M unit :=
  fun ns =>
    (Ok tt, {| collection := f (collection ns); stats := stats ns;
               logged := logged ns |}).

Definition log_errors (es : list exn) : M unit :=
  fun ns =>
    (Ok tt, {| collection := collection ns; stats := stats ns;
               logged := logged ns ++ es |}).

Definition get_state : M NewsScraper := fun ns => (Ok ns, ns).

Definition set_start (t : Z) (s : Stats) : Stats :=
  {| total_articles := total_articles s; by_region := by_region s;
     by_source := by_source s; errors := errors s;
     start_time := Some t; end_time := end_time s |}.

Definition set_end (t : Z) (s : Stats) : Stats :=
  {| total_articles := total_articles s; by_region := by_region s;
     by_source := by_source s; errors := errors s;
     start_time := start_time s; end_time := Some t |}.

Definition set_by_region (r : str) (n : Z) (s : Stats) : Stats :=
  {| total_articles := total_articles s;
     by_region := <[ r := n ]> (by_region s);
     by_source := by_source s; errors := errors s;
     start_time := start_time s; end_time := end_time s |}.

Definition set_total (n : Z) (s : Stats) : Stats :=
  {| total_articles := n; by_region := by_region s;
     by_source := by_source s; errors := errors s;
     start_time := start_time s; end_time := end_time s |}.

Definition append_error (e : exn) (s : Stats) : Stats :=
  {| total_articles := total_articles s; by_region := by_region s;
     by_source := by_source s; errors := errors s ++ [e];
     start_time := start_time s; end_time := end_time s |}.

Section Run.
Context {S : Type} `{Scrapes S}.

(** [scrape_kenya_news()] and [scrape_usa_news()].  [created] is the
    outcome of [create_kenya_scrapers()] / [create_usa_scrapers()], which
    are called outside the [try] of the loop. *)
Definition scrape_region_news (created : result (list S)) : M (list Article) :=
  match created with
  | Raise e => raise e
  | Ok scrapers =>
      let '(all_articles, failed) := scrape_loop scrapers in
      log_errors failed ;;; ret all_articles
  end.

(** [scrape_all] (the argument [parallel] is not used by the source),
    started at [t_start] and finished at [t_end]. *)
Definition scrape_all (kenya usa : result (list S)) (t_start t_end : Z)
  : M (list Article) :=
  modify_stats (set_start t_start) ;;;
  try_except
    (kenya_articles <- scrape_region_news kenya ;;
     modify_stats (set_by_region (lit "kenya") (Z.of_nat (length kenya_articles))) ;;;
     usa_articles <- scrape_region_news usa ;;
     modify_stats (set_by_region (lit "usa") (Z.of_nat (length usa_articles))) ;;;
     modify_collection
       (fun c => add_articles c (kenya_articles ++ usa_articles)) ;;;
     modify_collection deduplicate ;;;
     ns <- get_state ;;
     modify_stats (set_total (total_count (collection ns))))
    (fun e => log_errors [e] ;;; modify_stats (append_error e)) ;;;
  modify_stats (set_end t_end) ;;;
  ns <- get_state ;;
  ret (articles (collection ns)).

(** [scrape_region] for an already lower-cased region name; the scrapers
    are those of the region. *)
Definition scrape_region (region : str) (created : result (list S))
  : M (list Article) :=
  arts <- scrape_region_news created ;;
  modify_collection (fun c => add_articles c arts) ;;;
  modify_stats (set_by_region region (Z.of_nat (length arts))) ;;;
  ret arts.

(** [scrape_region(region)] with its choice of the scrapers:
    [region.lower()] selects them, an unknown region is logged as an
    error and yields no article.  The key of [by_region] is [region] as
    it was given. *)
Definition scrape_region_by (region : str) (kenya usa : result (list S))
  : M (list Article) :=
  if lower_is (lit "kenya") region then scrape_region region kenya
  else if lower_is (lit "usa") region then scrape_region region usa
  else log_errors [Error (lit "Unknown region: " ++ region)] ;;; ret [].

End Run.

End Orchestrator.

(* --------------------------------------------------------------------- *)
(** ** [news_scraper_standalone.py]: the loop of [ArticleScraper]         *)
(* --------------------------------------------------------------------- *)

Module Standalone.
Import PyStr Py.

(** The loop of [ArticleScraper.scrape_all] over the sources, before the
    lists are turned into a set: the articles gathered, the
    [by_source] counts and the [errors] recorded.  [scrape] is the
    outcome of building the scraper of a source and calling it. *)
Fixpoint scrape_sources {Src A} (src_name : Src -> str)
  (scrape : Src -> result (list A)) (sources : list Src)
  (acc : list A * gmap (list N) Z * list exn)
  : list A * gmap (list N) Z * list exn :=
  match sources with
  | [] => acc
  | src :: rest =>
      let '(arts, by_source, errors) := acc in
      scrape_sources src_name scrape rest
        match scrape src with
        | Ok l => (arts ++ l,
                   <[ src_name src := Z.of_nat (length l) ]> by_source,
                   errors)
        | Raise e => (arts, by_source, errors ++ [e])
        end
  end.

End Standalone.

(* --------------------------------------------------------------------- *)
(** ** [datetime.isoformat]                                               *)
(* --------------------------------------------------------------------- *)

Module IsoFormat.
Import PyStr PyTime.
Local Open Scope Z_scope.

Definition days_before_month : list Z :=
  [0; 0; 31; 59; 90; 120; 151; 181; 212; 243; 273; 304; 334].

Definition days_in_month : list Z :=
  [0; 31; 28; 31; 30; 31; 30; 31; 31; 30; 31; 30; 31].

(** Year, month and day of the proleptic Gregorian ordinal [n]
    (1 is 0001-01-01). *)
Definition ord2ymd (n : Z) : Z * Z * Z :=
  let n := n - 1 in
  let n400 := n / 146097 in
  let n := n mod 146097 in
  let n100 := n / 36524 in
  let n := n mod 36524 in
  let n4 := n / 1461 in
  let n := n mod 1461 in
  let n1 := n / 365 in
  let n := n mod 365 in
  let year := n400 * 400 + 1 + n100 * 100 + n4 * 4 + n1 in
  if (n1 =? 4) || (n100 =? 4) then (year - 1, 12, 31)
  else
    let leap := (n1 =? 3) && (negb (n4 =? 24) || (n100 =? 3)) in
    let month := (n + 50) / 32 in
    let preceding :=
      nth (Z.to_nat month) days_before_month 0
      + (if (2 <? month) && leap then 1 else 0) in
    if n <? preceding then
      let month := month - 1 in
      let preceding :=
        preceding
        - (nth (Z.to_nat month) days_in_month 0
           + (if (month =? 2) && leap then 1 else 0)) in
      (year, month, n - preceding + 1)
    else (year, month, n - preceding + 1).

(** [n] in decimal on [width] digits. *)
Fixpoint dec (width : nat) (n : Z) : str :=
  match width with
  | O => []
  | S w => dec w (n / 10) ++ [Z.to_N (48 + n mod 10)]
  end.

(** [t.isoformat()] of a naive [datetime]: the microseconds are printed
    when they are not zero. *)
Definition isoformat (t : Z) : str :=
  let '(y, m, d) := ord2ymd (t / us_per_day + 1) in
  let r := t mod us_per_day in
  let us := r mod us_per_second in
  dec 4 y ++ lit "-" ++ dec 2 m ++ lit "-" ++ dec 2 d ++ lit "T"
    ++ dec 2 (r / us_per_hour) ++ lit ":"
    ++ dec 2 (r mod us_per_hour / us_per_minute) ++ lit ":"
    ++ dec 2 (r mod us_per_minute / us_per_second)
    ++ (if us =? 0 then [] else lit "." ++ dec 6 us).

End IsoFormat.

(* --------------------------------------------------------------------- *)
(** ** [src/exporters/csv_exporter.py]                                    *)
(* --------------------------------------------------------------------- *)

Module CsvExporter.
Import PyStr ArticleModel IsoFormat.

(** The column headers. *)
Definition HEADERS : list string :=
  [ "id"; "title"; "url"; "summary"; "author"; "published_date";
    "scraped_at"; "source_name"; "source_url"; "region"; "categories";
    "image_url" ]%string.

(** A row dictionary, in the order of its keys. *)
Abbreviation row := (list (string * list N)) (only parsing).

(** [_article_to_row]. *)
Definition _article_to_row (a : Article) : row :=
  [ ("id", id a);
    ("title", title a);
    ("url", url a);
    ("summary", default [] (summary a));
    ("author", default [] (author a));
    ("published_date",
       match published_date a with
       | Some t => isoformat t
       | None => []
       end);
    ("scraped_at", isoformat (scraped_at a));
    ("source_name", source_name a);
    ("source_url", source_url a);
    ("region", region a);
    ("categories", join (lit "|") (categories a));
    ("image_url", default [] (image_url a)) ]%string.

(** The value of a key in a row; the empty string without the key. *)
Fixpoint cell (r : row) (key : string) : str :=
  match r with
  | [] => []
  | (k, v) :: rest => if String.eqb k key then v else cell rest key
  end.

(** [writer.writerow(row)]: the cells of the line, in the order of the
    headers. *)
Definition writerow (r : row) : list str :=
  List.map (cell r) HEADERS.

(** [export]: the table written to the file, the header line first.
    (The quoting of cells by the [csv] module is not modelled.) *)
Definition export (articles : list Article) : list (list str) :=
  List.map lit HEADERS :: List.map (fun a => writerow (_article_to_row a)) articles.


(** [export_by_region]: the table of the articles of a region. *)
Definition export_by_region (articles : list Article) (r : str)
  : list (list str) :=
  export (List.filter (fun a => bool_decide (region a = r)) articles).

(** [append]: the content of the file afterwards.  [None] is a file
    that does not exist; the header line is written only then. *)
Definition append (file : option (list (list str))) (articles : list Article)
  : list (list str) :=
  let lines := List.map (fun a => writerow (_article_to_row a)) articles in
  match file with
  | None => List.map lit HEADERS :: lines
  | Some content => content ++ lines
  end.

End CsvExporter.

(* --------------------------------------------------------------------- *)
(** ** Reading the flat format back                                       *)
(* --------------------------------------------------------------------- *)

Module CsvReader.
Import PyStr ArticleModel IsoFormat CsvExporter.









End CsvReader.

(* --------------------------------------------------------------------- *)
(** ** A reference instance of the URL library                            *)
(* --------------------------------------------------------------------- *)

(** [urlsplit] and [urljoin] of [urllib.parse] on plain URLs
    [scheme://authority/path] and on references that are absolute paths
    or full URLs.  Dot segments, parameters, and the validation of the
    authority are outside this instance; it serves to run the models on
    concrete URLs. *)
Module UrllibRef.
Import PyStr Py Libs.

Definition is_alpha (c : char) : bool :=
  ((65 <=? c) && (c <=? 90)) || ((97 <=? c) && (c <=? 122)).

Definition is_scheme_char (c : char) : bool :=
  is_alpha c || ((48 <=? c) && (c <=? 57))
  || (c =? 43) || (c =? 45) || (c =? 46).

Definition ascii_lower (c : char) : char :=
  if (65 <=? c) && (c <=? 90) then c + 32 else c.

(** The text before the first [:] when it is made of scheme characters,
    and the text after it. *)
Fixpoint scheme_prefix (s : str) : option (str * str) :=
  match s with
  | [] => None
  | c :: s' =>
      if c =? 58 then Some ([], s')
      else if is_scheme_char c then
        match scheme_prefix s' with
        | Some (sch, rest) => Some (c :: sch, rest)
        | None => None
        end
      else None
  end.

(** The scheme (lower-cased) and the rest of the URL. *)
Definition split_scheme (u : str) : str * str :=
  match u with
  | c :: _ =>
      if is_alpha c then
        match scheme_prefix u with
        | Some (sch, rest) => (List.map ascii_lower sch, rest)
        | None => ([], u)
        end
      else ([], u)
  | [] => ([], [])
  end.

(** The text up to the first of [/], [?], [#], and the rest. *)
Fixpoint until_delim (s : str) : str * str :=
  match s with
  | [] => ([], [])
  | c :: s' =>
      if (c =? 47) || (c =? 63) || (c =? 35) then ([], s)
      else let '(a, b) := until_delim s' in (c :: a, b)
  end.

(** The authority after [//], and the rest. *)
Definition split_netloc (rest : str) : str * str :=
  match rest with
  | 47 :: 47 :: r => until_delim r
  | _ => ([], rest)
  end.

Definition netloc (u : str) : str := fst (split_netloc (snd (split_scheme u))).

(** The path of the text after the authority: up to [?] or [#]. *)
Fixpoint path_of (s : str) : str :=
  match s with
  | [] => []
  | c :: s' => if (c =? 63) || (c =? 35) then [] else c :: path_of s'
  end.

(** The directory of a path: the path up to and with its last [/]. *)
Fixpoint dirname (p : str) : str :=
  match p with
  | [] => []
  | c :: p' => if existsb (N.eqb 47) p then c :: dirname p' else []
  end.

(** [urljoin(base, url)]. *)
Definition join_url (base u : str) : str :=
  match base, u with
  | [], _ => u
  | _, [] => base
  | _, _ =>
      let '(bscheme, brest) := split_scheme base in
      let '(bnetloc, bpath) := split_netloc brest in
      let '(sch, rest) := split_scheme u in
      match sch, rest with
      | _ :: _, _ => u
      | [], 47 :: 47 :: _ => bscheme ++ lit ":" ++ rest
      | [], 47 :: _ => bscheme ++ lit "://" ++ bnetloc ++ rest
      | [], _ =>
          let dir := dirname (path_of bpath) in
          bscheme ++ lit "://" ++ bnetloc
            ++ (match dir with [] => lit "/" | _ => dir end) ++ rest
      end
  end.


Fixpoint before (sep : char) (s : str) : str :=
  match s with
  | [] => []
  | c :: s' => if c =? sep then [] else c :: before sep s'
  end.



Definition urllib : UrlLib :=
  {| urljoin := fun base u => Ok (join_url base u);
     urlparse_netloc := fun u => Ok (netloc u) |}.

End UrllibRef.

(* --------------------------------------------------------------------- *)
(** ** Sample data                                                        *)
(* --------------------------------------------------------------------- *)

Module Samples.
Import PyStr Py ArticleModel.

(** Sample data: one article scraped twice, the summary updated. *)
Definition sample (summary_text : option str) (explicit_id : option str)
  : ArticleData :=
  {| d_id := explicit_id;
     d_title := lit "Test Article";
     d_url := lit "https://example.com/article/1";
     d_summary := summary_text;
     d_content := None;
     d_author := None;
     d_published_date := None;
     d_scraped_at := None;
     d_source_name := lit "Test Source";
     d_source_url := lit "https://example.com";
     d_region := lit "kenya";
     d_categories := None;
     d_image_url := None |}.

(** The article of a construction that succeeded. *)
Definition built (r : result Article) : list Article :=
  match r with
  | Ok a => [a]
  | Raise _ => []
  end.

Definition first_scrape : list Article :=
  Eval vm_compute in built (new_article 0 (sample (Some (lit "first")) None)).

Definition second_scrape : list Article :=
  Eval vm_compute in built (new_article 1 (sample (Some (lit "second")) None)).

(** An article of a given page of the sample site. *)
Definition page_data (page : string) (summary_text : option str)
  : ArticleData :=
  {| d_id := None;
     d_title := lit "Test Article";
     d_url := lit "https://example.com/article/" ++ lit page;
     d_summary := summary_text;
     d_content := None;
     d_author := None;
     d_published_date := None;
     d_scraped_at := None;
     d_source_name := lit "Test Source";
     d_source_url := lit "https://example.com";
     d_region := lit "kenya";
     d_categories := None;
     d_image_url := None |}.

Definition page_article (page : string) : list Article :=
  built (new_article 0 (page_data page None)).

(** Six scrapers, as the outcomes of their [scrape()]: the third one
    raises. *)
Definition six_sources : list (result (list Article)) :=
  [ Ok (page_article "1"); Ok (page_article "2");
    Raise (Error (lit "connection reset"));
    Ok (page_article "3"); Ok (page_article "4"); Ok (page_article "5") ].

(** An article given with untidy spacing and an upper-case region. *)
Definition untidy : ArticleData :=
  {| d_id := None;
     d_title := lit "  Test   Article  With   Spaces  ";
     d_url := lit "https://example.com/article/1";
     d_summary := Some (lit " A  summary ");
     d_content := None;
     d_author := None;
     d_published_date := None;
     d_scraped_at := None;
     d_source_name := lit "Test Source";
     d_source_url := lit "https://example.com";
     d_region := lit "KENYA";
     d_categories := None;
     d_image_url := None |}.

(** These scrapers are the outcomes of their calls. *)
Definition outcome_scrapes : Sources.Scrapes (result (list Article)) :=
  fun r => r.



(** Calls of [throttle]: the time before the call, the URL, the time the
    clock runs on beyond the sleep. *)
Definition call_at (g : Z) (u : string) (l : Z) : RateLimiter.call :=
  {| RateLimiter.gap := g; RateLimiter.call_url := lit u;
     RateLimiter.late := l |}.

(** A clock that shows [t], with date parsers that accept nothing. *)
Definition clock (t : Z) : Libs.DateLib :=
  {| Libs.now := t;
     Libs.dateutil_parse := fun _ => None;
     Libs.strptime := fun _ _ => None |}.

Definition sample_calls : list RateLimiter.call :=
  [call_at 0 "http://a.com/x" 0; call_at 1 "http://b.org/" 0;
   call_at 0 "https://a.com/y" 1].

End Samples.

(* ===================================================================== *)
(** * Part II.  Properties                                                *)
(* ===================================================================== *)

(* --------------------------------------------------------------------- *)
(** ** Articles and collections                                           *)
(* --------------------------------------------------------------------- *)

Module ArticleProps.
Import PyStr Py ArticleModel Samples.

Example sample_id :
  List.map id first_scrape = [lit "311b3371baf2708f"].
Proof. vm_compute. reflexivity. Qed.

(** *** Membership and the operations *)

Lemma contains_has_id (l : list Article) (a : Article) :
  contains l a = existsb (has_id (id a)) l.
Proof. reflexivity. Qed.

Lemma filter_has_id_nil (i : str) (l : list Article) :
  existsb (has_id i) l = false -> List.filter (has_id i) l = [].
Proof.
  induction l as [|x l IH]; simpl; [reflexivity|].
  intros Hex. apply orb_false_iff in Hex as [Hx Hl].
  rewrite Hx. apply IH, Hl.
Qed.

Lemma existsb_filter_has_id (i : str) (l : list Article) :
  existsb (has_id i) l = true -> List.filter (has_id i) l <> [].
Proof.
  induction l as [|x l IH]; simpl; [discriminate|].
  destruct (has_id i x) eqn:Hx; simpl; [discriminate|exact IH].
Qed.

Lemma has_id_same (a b : Article) :
  id a = id b -> has_id (id a) b = true.
Proof. intros Heq. unfold has_id. apply bool_decide_eq_true. symmetry. exact Heq. Qed.

Lemma has_id_self (a : Article) : has_id (id a) a = true.
Proof. apply has_id_same. reflexivity. Qed.

(** [add_article] keeps what is there and appends only a new identifier. *)
Lemma articles_add_article (c : ArticleCollection) (a : Article) :
  articles (add_article c a)
  = if contains (articles c) a then articles c else articles c ++ [a].
Proof. unfold add_article. destruct (contains (articles c) a); reflexivity. Qed.

Lemma filter_add_article (i : str) (c : ArticleCollection) (a : Article) :
  List.filter (has_id i) (articles (add_article c a))
  = if contains (articles c) a then List.filter (has_id i) (articles c)
    else List.filter (has_id i) (articles c) ++ (if has_id i a then [a] else []).
Proof.
  rewrite articles_add_article.
  destruct (contains (articles c) a); [reflexivity|].
  rewrite List.filter_app. simpl. destruct (has_id i a); reflexivity.
Qed.

(** Once an identifier is in the collection, further additions leave
    its entries alone. *)
Lemma filter_add_articles_present (i : str) (l : list Article)
  (c : ArticleCollection) :
  existsb (has_id i) (articles c) = true ->
  List.filter (has_id i) (articles (add_articles c l))
  = List.filter (has_id i) (articles c).
Proof.
  revert c. induction l as [|a l IH]; intros c Hin; [reflexivity|].
  unfold add_articles in *. simpl.
  rewrite IH.
  - rewrite filter_add_article.
    destruct (contains (articles c) a) eqn:Hc; [reflexivity|].
    destruct (has_id i a) eqn:Hia; [|apply app_nil_r].
    exfalso. unfold has_id in Hia. apply bool_decide_eq_true in Hia.
    rewrite contains_has_id, Hia, Hin in Hc. discriminate.
  - rewrite articles_add_article.
    destruct (contains (articles c) a); [exact Hin|].
    rewrite existsb_app, Hin. reflexivity.
Qed.

(** The entries of an identifier after [add_articles]: those already
    there, or else the first of the added ones. *)
Lemma filter_add_articles (i : str) (l : list Article) (c : ArticleCollection) :
  List.filter (has_id i) (articles (add_articles c l))
  = if existsb (has_id i) (articles c)
    then List.filter (has_id i) (articles c)
    else firstn 1 (List.filter (has_id i) l).
Proof.
  revert c. induction l as [|a l IH]; intros c.
  - simpl. destruct (existsb (has_id i) (articles c)) eqn:Hin; [reflexivity|].
    apply filter_has_id_nil, Hin.
  - destruct (existsb (has_id i) (articles c)) eqn:Hin.
    + apply filter_add_articles_present, Hin.
    + change (add_articles c (a :: l)) with (add_articles (add_article c a) l).
      simpl. destruct (has_id i a) eqn:Hia.
      * assert (Hc : contains (articles c) a = false).
        { unfold has_id in Hia. apply bool_decide_eq_true in Hia.
          rewrite contains_has_id, Hia. exact Hin. }
        rewrite filter_add_articles_present.
        -- rewrite filter_add_article, Hc, Hia, (filter_has_id_nil _ _ Hin).
           reflexivity.
        -- rewrite articles_add_article, Hc, existsb_app. simpl.
           rewrite Hia. apply orb_true_iff. right. reflexivity.
      * rewrite IH. rewrite articles_add_article.
        destruct (contains (articles c) a); rewrite ?existsb_app, Hin; simpl;
          rewrite ?Hia; reflexivity.
Qed.

(** The loop of [deduplicate] only appends to [unique_articles]. *)
Lemma dedup_loop_app (l : list Article) (seen : gset (list N))
  (unique : list Article) :
  dedup_loop seen unique l = unique ++ dedup_loop seen [] l.
Proof.
  revert seen unique. induction l as [|a l IH]; intros seen unique; simpl.
  - symmetry. apply app_nil_r.
  - destruct (bool_decide (id a ∈ seen)); [apply IH|].
    rewrite IH, (IH _ [a]). simpl. rewrite <- app_assoc. reflexivity.
Qed.

(** The entries of an identifier after the loop: none when it was seen
    before, else the first one of the list. *)
Lemma filter_dedup_loop (i : str) (l : list Article) (seen : gset (list N)) :
  List.filter (has_id i) (dedup_loop seen [] l)
  = if bool_decide (i ∈ seen) then []
    else firstn 1 (List.filter (has_id i) l).
Proof.
  revert seen. induction l as [|a l IH]; intros seen; simpl.
  - destruct (bool_decide (i ∈ seen)); reflexivity.
  - destruct (bool_decide (id a ∈ seen)) eqn:Hseen.
    + rewrite IH. destruct (bool_decide (i ∈ seen)) eqn:Hi; [reflexivity|].
      destruct (has_id i a) eqn:Hia; [|reflexivity].
      unfold has_id in Hia. apply bool_decide_eq_true in Hia. subst i.
      rewrite Hseen in Hi. discriminate.
    + rewrite dedup_loop_app, List.filter_app, IH. simpl.
      destruct (has_id i a) eqn:Hia.
      * unfold has_id in Hia. apply bool_decide_eq_true in Hia. subst i.
        rewrite Hseen.
        rewrite (bool_decide_eq_true_2 (id a ∈ {[id a]} ∪ seen));
          [reflexivity|set_solver].
      * assert (Hne : id a <> i).
        { intros Heq. unfold has_id in Hia.
          apply bool_decide_eq_false in Hia. contradiction. }
        destruct (bool_decide (i ∈ seen)) eqn:Hi.
        -- apply bool_decide_eq_true in Hi.
           rewrite (bool_decide_eq_true_2 (i ∈ {[id a]} ∪ seen));
             [reflexivity|set_solver].
        -- apply bool_decide_eq_false in Hi.
           rewrite (bool_decide_eq_false_2 (i ∈ {[id a]} ∪ seen));
             [reflexivity|set_solver].
Qed.

Lemma filter_deduplicate (i : str) (c : ArticleCollection) :
  List.filter (has_id i) (articles (deduplicate c))
  = firstn 1 (List.filter (has_id i) (articles c)).
Proof.
  unfold deduplicate. simpl. rewrite filter_dedup_loop.
  rewrite bool_decide_eq_false_2; [reflexivity|set_solver].
Qed.

(** *** C1: which of two scrapes of one article survives *)

(** C1, as stated, fails: of two articles built from the same
    [(url, title)] with different summaries, both [add_article] and
    [deduplicate] keep the one added first; the collection does not end
    up holding the one added last. *)
Lemma last_write_does_not_win :
  match first_scrape, second_scrape with
  | [a1], [a2] =>
      id a1 = id a2
      /\ summary a1 = Some (lit "first")
      /\ summary a2 = Some (lit "second")
      /\ articles (add_article (add_article (empty_collection 0) a1) a2) = [a1]
      /\ articles (deduplicate (set_articles (empty_collection 0) [a1; a2])) = [a1]
      /\ [a1] <> [a2]
  | _, _ => False
  end.
Proof.
  vm_compute. repeat split; try reflexivity. intros Heq. discriminate Heq.
Qed.

(** C1, amended (first write wins): when [a1] and [a2] have the same
    identifier, adding [a1] then [a2] to a collection without that
    identifier leaves exactly one entry with it, namely [a1]; and a
    deduplication pass or a bulk addition over a list in which [a1] is
    the first article with that identifier leaves exactly [a1]. *)
Theorem first_write_wins (c : ArticleCollection) (a1 a2 : Article)
  (l1 l2 l3 : list Article) :
  id a1 = id a2 ->
  contains (articles c) a1 = false ->
  contains l1 a1 = false ->
  List.filter (has_id (id a1))
    (articles (add_article (add_article c a1) a2)) = [a1]
  /\ List.filter (has_id (id a1))
       (articles (deduplicate (set_articles c (l1 ++ a1 :: l2 ++ a2 :: l3))))
     = [a1]
  /\ List.filter (has_id (id a1))
       (articles (add_articles c (l1 ++ a1 :: l2 ++ a2 :: l3))) = [a1].
Proof.
  intros Hid Hc Hl1.
  rewrite contains_has_id in Hc, Hl1.
  assert (Hfirst : firstn 1 (List.filter (has_id (id a1))
                               (l1 ++ a1 :: l2 ++ a2 :: l3)) = [a1]).
  { rewrite List.filter_app, (filter_has_id_nil _ _ Hl1). simpl.
    rewrite has_id_self. reflexivity. }
  repeat split.
  - change (add_article (add_article c a1) a2) with (add_articles c [a1; a2]).
    rewrite filter_add_articles, Hc. simpl.
    rewrite has_id_self. reflexivity.
  - rewrite filter_deduplicate. exact Hfirst.
  - rewrite filter_add_articles, Hc. exact Hfirst.
Qed.

(** The amended C1 on the two sample scrapes. *)
Lemma first_write_wins_witness :
  match first_scrape, second_scrape with
  | [a1], [a2] =>
      id a1 = id a2
      /\ List.filter (has_id (id a1))
           (articles (add_article (add_article (empty_collection 0) a1) a2))
         = [a1]
      /\ List.filter (has_id (id a1))
           (articles (deduplicate
              (set_articles (empty_collection 0) ([] ++ a1 :: [] ++ a2 :: []))))
         = [a1]
      /\ List.filter (has_id (id a1))
           (articles (add_articles (empty_collection 0)
              ([] ++ a1 :: [] ++ a2 :: []))) = [a1]
  | _, _ => False
  end.
Proof.
  unfold first_scrape, second_scrape.
  split; [reflexivity|].
  apply (first_write_wins (empty_collection 0) _ _ [] [] []); reflexivity.
Defined.

(** *** C2: the identifier *)




(** The constructor succeeds on well-formed data, so the amended C2 is
    not about an empty set of articles. *)
Lemma new_article_succeeds (now : Z) (d : ArticleData) (reg : str)
  (bytes : list N) :
  length_ok 1 500 (d_title d) = true ->
  opt_length_ok 2000 (d_summary d) = true ->
  opt_length_ok 200 (d_author d) = true ->
  validate_region (d_region d) = Some reg ->
  truthy (d_id d) = false ->
  encode (d_url d ++ clean_field (d_title d)) = Some bytes ->
  exists a, new_article now d = Ok a
            /\ id a = firstn 16 (MD5.hexdigest bytes)
            /\ region a = reg.
Proof.
  intros Ht Hs Ha Hr Hi He. unfold new_article, _generate_id.
  rewrite Ht, Hs, Ha, Hr, Hi, He. simpl. eexists. repeat split.
Qed.

(** *** C10: [total_count] *)

Lemma total_count_set_articles (c : ArticleCollection) (l : list Article) :
  total_count (set_articles c l) = Z.of_nat (length (articles (set_articles c l))).
Proof. reflexivity. Qed.

Lemma total_count_add_article (c : ArticleCollection) (a : Article) :
  total_count c = Z.of_nat (length (articles c)) ->
  total_count (add_article c a)
  = Z.of_nat (length (articles (add_article c a))).
Proof.
  intros Hc. unfold add_article.
  destruct (contains (articles c) a); [exact Hc|reflexivity].
Qed.

Lemma total_count_add_articles (l : list Article) (c : ArticleCollection) :
  total_count c = Z.of_nat (length (articles c)) ->
  total_count (add_articles c l)
  = Z.of_nat (length (articles (add_articles c l))).
Proof.
  revert c. induction l as [|a l IH]; intros c Hc; [exact Hc|].
  apply (IH (add_article c a)), total_count_add_article, Hc.
Qed.

Lemma total_count_operation (c : ArticleCollection) (o : operation) :
  total_count c = Z.of_nat (length (articles c)) ->
  total_count (apply_operation c o)
  = Z.of_nat (length (articles (apply_operation c o))).
Proof.
  intros Hc. destruct o as [a|l|]; simpl.
  - apply total_count_add_article, Hc.
  - apply total_count_add_articles, Hc.
  - reflexivity.
Qed.

(** C10: in a collection whose [total_count] is the length of
    [articles], each of [add_article], [add_articles] and [deduplicate]
    keeps it so, and so does every sequence of them. *)
Theorem total_count_invariant (c : ArticleCollection) (os : list operation) :
  total_count c = Z.of_nat (length (articles c)) ->
  total_count (apply_operations c os)
  = Z.of_nat (length (articles (apply_operations c os))).
Proof.
  revert c. induction os as [|o os IH]; intros c Hc; [exact Hc|].
  apply (IH (apply_operation c o)), total_count_operation, Hc.
Qed.

(** C10 on a run from the empty collection: two scrapes of one article,
    a deduplication, a bulk addition. *)
Lemma total_count_invariant_witness :
  let os := [AddArticles first_scrape; AddArticles second_scrape; Deduplicate;
             AddArticles (first_scrape ++ second_scrape)] in
  total_count (empty_collection 0)
  = Z.of_nat (length (articles (empty_collection 0)))
  /\ total_count (apply_operations (empty_collection 0) os)
     = Z.of_nat (length (articles (apply_operations (empty_collection 0) os)))
  /\ total_count (apply_operations (empty_collection 0) os) = 1%Z.
Proof.
  split; [reflexivity|]. split.
  - apply (total_count_invariant (empty_collection 0)). reflexivity.
  - vm_compute. reflexivity.
Defined.

End ArticleProps.

(* --------------------------------------------------------------------- *)
(** ** Strings: [split], [join], [strip]                                  *)
(* --------------------------------------------------------------------- *)

Module PyStrProps.
Import PyStr.



Lemma is_word_cons (c : char) (w : str) :
  is_word (c :: w) = negb (isspace c) && forallb (fun c => negb (isspace c)) w.
Proof. reflexivity. Qed.

Lemma is_word_forallb (w : str) :
  is_word w = true -> forallb (fun c => negb (isspace c)) w = true.
Proof. destruct w; [discriminate|]. intros H. exact H. Qed.

Lemma is_word_tail (c d : char) (w : str) :
  is_word (c :: d :: w) = true -> is_word (d :: w) = true.
Proof.
  rewrite !is_word_cons. simpl. intros H.
  apply andb_true_iff in H as [_ H]. exact H.
Qed.

Lemma is_word_head (c : char) (w : str) :
  is_word (c :: w) = true -> isspace c = false.
Proof.
  rewrite is_word_cons. intros H. apply andb_true_iff in H as [H _].
  apply negb_true_iff in H. exact H.
Qed.

Lemma split_word (w : str) : is_word w = true -> PyStr.split w = [w].
Proof.
  induction w as [|c w IH]; [discriminate|].
  intros Hw. pose proof (is_word_head _ _ Hw) as Hc.
  destruct w as [|d w]; simpl; rewrite Hc; [reflexivity|].
  pose proof (is_word_tail _ _ _ Hw) as Hw'.
  rewrite (is_word_head _ _ Hw').
  change (PyStr.split (d :: w)) with (PyStr.split (d :: w)) in IH.
  specialize (IH Hw'). simpl in IH. rewrite (is_word_head _ _ Hw') in IH.
  rewrite IH. reflexivity.
Qed.

Lemma split_word_app (w : str) (c : char) (rest : str) :
  is_word w = true -> isspace c = true ->
  PyStr.split (w ++ c :: rest) = w :: PyStr.split rest.
Proof.
  intros Hw Hc. induction w as [|x w IH]; [discriminate|].
  pose proof (is_word_head _ _ Hw) as Hx.
  destruct w as [|y w].
  - simpl. rewrite Hx, Hc. reflexivity.
  - pose proof (is_word_tail _ _ _ Hw) as Hw'.
    specialize (IH Hw').
    change ((x :: y :: w) ++ c :: rest) with (x :: (y :: w) ++ c :: rest).
    remember ((y :: w) ++ c :: rest) as t eqn:Ht.
    simpl. rewrite Hx. rewrite Ht at 1. simpl.
    rewrite (is_word_head _ _ Hw'), IH. reflexivity.
Qed.

(** Every element of [split s] is a word. *)
Lemma split_words (s : str) : forallb is_word (PyStr.split s) = true.
Proof.
  induction s as [|c s IH]; [reflexivity|].
  simpl. destruct (isspace c) eqn:Hc; [exact IH|].
  destruct s as [|d s]; [simpl; rewrite Hc; reflexivity|].
  destruct (isspace d) eqn:Hd.
  - simpl. rewrite Hc. simpl. exact IH.
  - destruct (PyStr.split (d :: s)) as [|w ws] eqn:Hs.
    + simpl. rewrite Hc. reflexivity.
    + cbn [forallb] in IH. apply andb_true_iff in IH as [Hw Hws].
      cbn [forallb]. rewrite Hws, is_word_cons, Hc, (is_word_forallb _ Hw).
      reflexivity.
Qed.




Lemma join_words_nonempty (ws : list str) :
  ws <> [] -> forallb is_word ws = true -> join (lit " ") ws <> [].
Proof.
  destruct ws as [|w ws]; [congruence|].
  intros _ Hws. simpl in Hws. apply andb_true_iff in Hws as [Hw _].
  destruct w; [discriminate|]. destruct ws; discriminate.
Qed.


Lemma split_join (ws : list str) :
  forallb is_word ws = true -> PyStr.split (join (lit " ") ws) = ws.
Proof.
  induction ws as [|w ws IH]; [reflexivity|].
  intros Hws. simpl in Hws. apply andb_true_iff in Hws as [Hw Hws].
  destruct ws as [|w' ws].
  - simpl. apply split_word, Hw.
  - change (join (lit " ") (w :: w' :: ws))
      with (w ++ 32 :: join (lit " ") (w' :: ws)).
    rewrite split_word_app by (exact Hw || reflexivity).
    rewrite IH by exact Hws. reflexivity.
Qed.

(** [lstrip] removes a prefix of whitespace and stops at the first
    other character. *)
Lemma lstrip_decompose (s : str) :
  exists pre, s = pre ++ lstrip s /\ forallb isspace pre = true.
Proof.
  induction s as [|c s [pre [Hs Hpre]]]; [exists []; split; reflexivity|].
  simpl. destruct (isspace c) eqn:Hc.
  - exists (c :: pre). simpl. rewrite Hc, Hpre. split; [|reflexivity].
    f_equal. exact Hs.
  - exists []. split; reflexivity.
Qed.

Lemma lstrip_head (s : str) (c : char) (rest : str) :
  lstrip s = c :: rest -> isspace c = false.
Proof.
  induction s as [|d s IH]; [discriminate|].
  simpl. destruct (isspace d) eqn:Hd; [exact IH|].
  intros Heq. injection Heq as <- _. exact Hd.
Qed.

Lemma lstrip_nonspace (c : char) (s : str) :
  isspace c = false -> lstrip (c :: s) = c :: s.
Proof. intros Hc. simpl. rewrite Hc. reflexivity. Qed.

Lemma last_app_singleton (s : str) (c d : char) : List.last (s ++ [c]) d = c.
Proof. apply List.last_last. Qed.

(** [strip] leaves no whitespace at either end. *)
Lemma trimmed_strip (s : str) : trimmed (strip s) = true.
Proof.
  unfold strip, rstrip.
  destruct (lstrip s) as [|c t] eqn:Hl; [reflexivity|].
  pose proof (lstrip_head _ _ _ Hl) as Hc.
  destruct (lstrip_decompose (rev (c :: t))) as [pre [Hrev Hpre]].
  destruct (lstrip (rev (c :: t))) as [|d u] eqn:Hu.
  - exfalso. rewrite app_nil_r in Hrev.
    assert (Hin : In c pre).
    { rewrite <- Hrev. apply in_rev. rewrite rev_involutive. left. reflexivity. }
    rewrite forallb_forall in Hpre. rewrite (Hpre _ Hin) in Hc. discriminate.
  - pose proof (lstrip_head _ _ _ Hu) as Hd.
    assert (Hct : c :: t = rev u ++ d :: rev pre).
    { rewrite <- (rev_involutive (c :: t)), Hrev, rev_app_distr. simpl.
      rewrite <- app_assoc. reflexivity. }
    simpl rev.
    destruct (rev u) as [|x ru] eqn:Hru.
    + simpl in Hct. injection Hct as -> _. simpl. rewrite Hd. reflexivity.
    + simpl in Hct. injection Hct as <- _.
      change ((c :: ru) ++ [d]) with (c :: (ru ++ [d])).
      unfold trimmed. rewrite Hc.
      change (c :: ru ++ [d]) with ((c :: ru) ++ [d]).
      rewrite last_app_singleton, Hd. reflexivity.
Qed.

(** Slices with a non-negative bound. *)
Lemma slice_to_nonneg {A} (s : list A) (n : Z) :
  (0 <= n)%Z -> slice_to s n = firstn (Z.to_nat n) s.
Proof.
  intros Hn. unfold slice_to.
  destruct (n <? 0)%Z eqn:Hlt; [|reflexivity].
  apply Z.ltb_lt in Hlt. lia.
Qed.

Lemma length_slice_to {A} (s : list A) (n : Z) :
  (0 <= n <= Z.of_nat (length s))%Z ->
  Z.of_nat (length (slice_to s n)) = n.
Proof.
  intros Hn. rewrite slice_to_nonneg by lia.
  rewrite length_firstn. lia.
Qed.

End PyStrProps.

(* --------------------------------------------------------------------- *)
(** ** The validators                                                     *)
(* --------------------------------------------------------------------- *)

Module ValidatorsProps.
Import PyStr Regex Py PyTime Libs Validators PyStrProps.

(** *** C6: [clean_text] *)


Example clean_text_newlines :
  clean_text (Some [84; 101; 120; 116; 32; 119; 105; 116; 104; 10; 10;
                    110; 101; 119; 108; 105; 110; 101; 115]) None
  = lit "Text with newlines".
Proof. vm_compute. reflexivity. Qed.

Example clean_text_read_more :
  clean_text (Some (lit "Read more... Click here")) None = lit "..".
Proof. vm_compute. reflexivity. Qed.

Example clean_text_max_length :
  clean_text (Some (repeat 65 100)) (Some 50%Z) = repeat 65 47 ++ lit "...".
Proof. vm_compute. reflexivity. Qed.


Lemma collapse_words (t : str) : PyStr.split (collapse t) = PyStr.split t.
Proof. apply split_join, split_words. Qed.

Lemma collapse_idempotent (t : str) : collapse (collapse t) = collapse t.
Proof. unfold collapse at 1. rewrite collapse_words. reflexivity. Qed.






(** *** C7: [normalize_url] *)

Lemma startswith_app (p r : str) : startswith p (p ++ r) = true.
Proof.
  induction p as [|c p IH]; [reflexivity|].
  simpl. rewrite N.eqb_refl. exact IH.
Qed.

Lemma force_https_http (r : str) :
  force_https (lit "http://" ++ r) = lit "https://" ++ r.
Proof.
  unfold force_https. rewrite startswith_app. reflexivity.
Qed.

Lemma force_https_other (u : str) :
  startswith (lit "http://") u = false -> force_https u = u.
Proof. intros H. unfold force_https. rewrite H. reflexivity. Qed.

(** C7, as stated, fails: an input that is "passed through" loses its
    surrounding whitespace, an input of whitespace alone comes back as
    the empty string rather than null, and a reference resolved against
    an [http://] base is not returned as resolved but rewritten to
    [https://]. *)
Lemma normalize_url_counterexample :
  normalize_url UrllibRef.urllib (Some (lit " https://example.com/a ")) None
  = Ok (Some (lit "https://example.com/a"))
  /\ normalize_url UrllibRef.urllib (Some (lit "  ")) None = Ok (Some [])
  /\ urljoin UrllibRef.urllib (lit "http://example.com") (lit "/path")
     = Ok (lit "http://example.com/path")
  /\ normalize_url UrllibRef.urllib (Some (lit "/path"))
       (Some (lit "http://example.com"))
     = Ok (Some (lit "https://example.com/path")).
Proof. vm_compute. repeat split; reflexivity. Qed.

(** C7, amended.  [normalize_url] returns null for absent or empty
    input.  Otherwise, with [s] the input stripped of surrounding
    whitespace: when a non-empty base URL is given and [s] starts with
    neither [http://] nor [https://], [s] is resolved against the base
    with [urljoin], else it is taken as it is; a leading [http://] of
    the outcome is then rewritten to [https://], and nothing else is
    changed.  With a [urljoin] that resolves [/path] against
    [https://example.com] as the library does,
    [normalize_url("/path", "https://example.com")] is
    [https://example.com/path]. *)
Theorem normalize_url_spec (U : UrlLib) :
  urljoin U (lit "https://example.com") (lit "/path")
  = Ok (lit "https://example.com/path") ->
  (forall b, normalize_url U None b = Ok None
             /\ normalize_url U (Some []) b = Ok None)
  /\ (forall c u b base,
        has_http_prefix (strip (c :: u)) = false ->
        normalize_url U (Some (c :: u)) (Some (b :: base))
        = bind (urljoin U (b :: base) (strip (c :: u)))
               (fun j => Ok (Some (force_https j))))
  /\ (forall c u b,
        truthy b = false \/ has_http_prefix (strip (c :: u)) = true ->
        normalize_url U (Some (c :: u)) b
        = Ok (Some (force_https (strip (c :: u)))))
  /\ (forall r, force_https (lit "http://" ++ r) = lit "https://" ++ r)
  /\ (forall u, startswith (lit "http://") u = false -> force_https u = u)
  /\ normalize_url U (Some (lit "/path")) (Some (lit "https://example.com"))
     = Ok (Some (lit "https://example.com/path")).
Proof.
  intros Hjoin.
  split; [intros b; split; reflexivity|].
  split; [|split; [|split; [exact force_https_http|
                            split; [exact force_https_other|]]]].
  - intros c u b base Hpre. unfold normalize_url, has_http_prefix in *.
    rewrite Hpre. reflexivity.
  - intros c u b [Hb | Hpre]; unfold normalize_url, has_http_prefix in *.
    + destruct b as [[|b base]|]; [reflexivity|discriminate|reflexivity].
    + rewrite Hpre. destruct b as [[|b base]|]; reflexivity.
  - unfold normalize_url.
    change (strip (lit "/path")) with (lit "/path").
    change (lit "https://example.com")
      with (104 :: List.tl (lit "https://example.com")) at 1.
    cbv iota beta.
    change (104 :: List.tl (lit "https://example.com"))
      with (lit "https://example.com").
    change (negb (has_http_prefix (lit "/path"))) with true.
    cbv iota. rewrite Hjoin. reflexivity.
Qed.

(** The amended C7 with the reference URL library. *)
Lemma normalize_url_spec_witness :
  urljoin UrllibRef.urllib (lit "https://example.com") (lit "/path")
  = Ok (lit "https://example.com/path")
  /\ normalize_url UrllibRef.urllib (Some (lit "/path"))
       (Some (lit "https://example.com"))
     = Ok (Some (lit "https://example.com/path")).
Proof.
  split; [reflexivity|].
  apply (normalize_url_spec UrllibRef.urllib). reflexivity.
Defined.

Example normalize_url_http :
  normalize_url UrllibRef.urllib (Some (lit "http://example.com")) None
  = Ok (Some (lit "https://example.com")).
Proof. vm_compute. reflexivity. Qed.

(** *** C5: [parse_date] *)

(** The order of the attempts. *)
Lemma parse_date_empty (D : DateLib) :
  parse_date D None = Ok None /\ parse_date D (Some []) = Ok None.
Proof. split; reflexivity. Qed.

Lemma parse_date_relative (D : DateLib) (c : char) (s : str) (r : result Z) :
  first_relative D relative_patterns (strip (c :: s)) = Some r ->
  parse_date D (Some (c :: s)) = bind r (fun t => Ok (Some t)).
Proof. intros H. unfold parse_date. rewrite H. reflexivity. Qed.

Lemma parse_date_fuzzy (D : DateLib) (c : char) (s : str) (t : Z) :
  first_relative D relative_patterns (strip (c :: s)) = None ->
  dateutil_parse D (strip (c :: s)) = Some t ->
  parse_date D (Some (c :: s)) = Ok (Some t).
Proof. intros Hr Hf. unfold parse_date. rewrite Hr, Hf. reflexivity. Qed.

Lemma parse_date_formats (D : DateLib) (c : char) (s : str) :
  first_relative D relative_patterns (strip (c :: s)) = None ->
  dateutil_parse D (strip (c :: s)) = None ->
  parse_date D (Some (c :: s))
  = Ok (first_format D date_formats (strip (c :: s))).
Proof. intros Hr Hf. unfold parse_date. rewrite Hr, Hf. reflexivity. Qed.

(** [parse_date] raises exactly when the handler of the relative
    pattern found raises: the library parsers are guarded, the handlers
    are not. *)
Lemma parse_date_raises (D : DateLib) (s : option str) (e : exn) :
  parse_date D s = Raise e <->
  exists c t, s = Some (c :: t)
    /\ first_relative D relative_patterns (strip (c :: t)) = Some (Raise e).
Proof.
  split.
  - destruct s as [[|c t]|]; try discriminate.
    unfold parse_date.
    destruct (first_relative D relative_patterns (strip (c :: t)))
      as [[v|e']|] eqn:Hr; simpl.
    + discriminate.
    + intros Heq. injection Heq as ->. exists c, t. split; [reflexivity|exact Hr].
    + destruct (dateutil_parse D (strip (c :: t))); discriminate.
  - intros (c & t & -> & Hr). unfold parse_date. rewrite Hr. reflexivity.
Qed.

(** C5 fails on the code: a relative phrase whose offset does not fit a
    [timedelta] makes the handler raise [OverflowError], and the loop
    over the relative patterns is outside any [try].  Whatever the
    clock and the libraries, [parse_date("9999999999 days ago")]
    raises. *)
Theorem parse_date_overflow (D : DateLib) :
  parse_date D (Some (lit "9999999999 days ago")) = Raise OverflowError.
Proof. vm_compute. reflexivity. Qed.

Lemma first_relative_match (D : DateLib) (ps : list (pattern * relative))
  (s : str) :
  first_relative D ps s
  = option_map (fun rg => handler D (fst rg) (snd rg)) (first_match ps s).
Proof.
  induction ps as [|[p r] ps IH]; [reflexivity|].
  simpl. destruct (search p s); [reflexivity|exact IH].
Qed.

(** So does an offset that fits a [timedelta] but leads before the year
    1: four million days, from any representable date. *)
Lemma parse_date_before_year_one (D : DateLib) :
  valid (now D) = true ->
  parse_date D (Some (lit "4000000 days ago")) = Raise OverflowError.
Proof.
  intros Hnow.
  assert (Hm : first_match relative_patterns (strip (lit "4000000 days ago"))
               = Some (DaysAgo, [lit "4000000"])) by (vm_compute; reflexivity).
  assert (Hr : first_relative D relative_patterns (strip (lit "4000000 days ago"))
               = Some (minus (now D) 345600000000000000%Z)).
  { rewrite first_relative_match, Hm. reflexivity. }
  change (lit "4000000 days ago") with (52 :: lit "000000 days ago") in *.
  rewrite (parse_date_relative D _ _ _ Hr).
  unfold minus.
  assert (Hv : valid (now D - 345600000000000000) = false).
  { unfold valid in *. apply andb_true_iff in Hnow as [_ Hlt].
    apply Z.ltb_lt in Hlt. apply andb_false_iff. left.
    apply Z.leb_gt.
    change max_us with 315537897600000000%Z in Hlt. lia. }
  rewrite Hv. reflexivity.
Qed.

(** The relative phrases of the tests, at a time in range. *)
Example parse_date_two_hours_ago (D : DateLib) :
  parse_date D (Some (lit "2 hours ago"))
  = bind (minus (now D) 7200000000%Z) (fun t => Ok (Some t)).
Proof.
  assert (Hm : first_match relative_patterns (strip (lit "2 hours ago"))
               = Some (HoursAgo, [lit "2"])) by (vm_compute; reflexivity).
  change (lit "2 hours ago") with (50 :: lit " hours ago") in *.
  rewrite (parse_date_relative D _ _ (minus (now D) 7200000000%Z));
    [reflexivity|].
  rewrite first_relative_match, Hm. reflexivity.
Qed.

(** Without a relative phrase the function returns, a date or null. *)
Lemma parse_date_returns (D : DateLib) (s : str) :
  first_relative D relative_patterns (strip s) = None ->
  exists v, parse_date D (Some s) = Ok v.
Proof.
  intros Hr. destruct s as [|c s]; [exists None; reflexivity|].
  unfold parse_date. rewrite Hr.
  destruct (dateutil_parse D (strip (c :: s))); eexists; reflexivity.
Qed.

End ValidatorsProps.

(* --------------------------------------------------------------------- *)
(** ** The domain throttler                                               *)
(* --------------------------------------------------------------------- *)

Module RateLimiterProps.
Import PyStr Py Libs RateLimiter Samples.
Local Open Scope Z_scope.

(** The sleep never is negative, and brings the clock to the delay after
    the entry. *)
Lemma wait_nonneg (delay now : Z) (entry : option Z) : 0 <= wait delay now entry.
Proof.
  unfold wait. destruct entry as [last|]; [|lia].
  cbv zeta. destruct (Z.ltb_spec (now - last) delay); lia.
Qed.


(** One call, spelled out. *)
Lemma throttle_inv (U : UrlLib) (th th' : DomainThrottler) (u : str)
  (clock late t : Z) (e : event) :
  throttle U th u clock late = Ok (th', t, e) ->
  _get_domain U u = Ok (ev_domain e)
  /\ ev_enter e = clock
  /\ ev_sleep e = sleep_time th (ev_domain e) clock
  /\ ev_record e = clock + ev_sleep e + late
  /\ t = ev_record e
  /\ default_delay th' = default_delay th
  /\ domain_delays th' = domain_delays th
  /\ last_request th' = <[ ev_domain e := ev_record e ]> (last_request th).
Proof.
  unfold throttle. destruct (_get_domain U u) as [d|x]; simpl; [|discriminate].
  intros Heq. injection Heq as <- <- <-. simpl. repeat split.
Qed.

Lemma delay_for_ext (th th' : DomainThrottler) (d : str) :
  default_delay th' = default_delay th ->
  domain_delays th' = domain_delays th ->
  delay_for th' d = delay_for th d.
Proof. intros H1 H2. unfold delay_for. rewrite H1, H2. reflexivity. Qed.

(** The entry of a domain after a first call and further ones. *)
Lemma entry_after_cons (init : gmap (list N) Z) (e : event)
  (evs : list event) (d : str) :
  entry_after init (e :: evs) d
  = entry_after (<[ ev_domain e := ev_record e ]> init) evs d.
Proof.
  unfold entry_after. simpl.
  destruct (last_record d evs) as [t|]; [reflexivity|].
  destruct (bool_decide (ev_domain e = d)) eqn:Hd.
  - apply bool_decide_eq_true in Hd. subst d.
    rewrite lookup_insert_eq. reflexivity.
  - apply bool_decide_eq_false in Hd.
    rewrite lookup_insert_ne by exact Hd. reflexivity.
Qed.

(** The calls for other domains do not touch the entry of a domain. *)
Lemma entry_after_other (init : gmap (list N) Z) (evs : list event) (d : str) :
  Forall (fun e => ev_domain e <> d) evs ->
  entry_after init evs d = init !! d.
Proof.
  intros Hall. unfold entry_after.
  assert (Hnone : last_record d evs = None).
  { induction Hall as [|e evs He _ IH]; [reflexivity|].
    simpl. rewrite IH. rewrite bool_decide_eq_false_2 by exact He.
    reflexivity. }
  rewrite Hnone. reflexivity.
Qed.

(** What a run keeps: the keys, the delays, the order of the clock
    readings, the sleep and the spacing of every call, and the final
    entries. *)
Lemma run_inv (U : UrlLib) (calls : list call) :
  forall (th thN : DomainThrottler) (clock clockN : Z) (evs : list event),
  monotone calls ->
  run U th clock calls = Ok (thN, clockN, evs) ->
  Forall2 (fun c e => _get_domain U (call_url c) = Ok (ev_domain e)) calls evs
  /\ default_delay thN = default_delay th
  /\ domain_delays thN = domain_delays th
  /\ clock <= clockN
  /\ Forall (fun e => clock <= ev_enter e /\ ev_enter e <= ev_record e
                      /\ ev_record e <= clockN) evs
  /\ (forall d, last_request thN !! d = entry_after (last_request th) evs d)
  /\ (forall pre e post, evs = pre ++ e :: post ->
        ev_sleep e
        = wait (delay_for th (ev_domain e)) (ev_enter e)
               (entry_after (last_request th) pre (ev_domain e))
        /\ ev_enter e + ev_sleep e <= ev_record e
        /\ Forall (fun p => ev_record p <= ev_enter e) pre).
Proof.
  induction calls as [|c calls IH]; intros th thN clock clockN evs Hmono Hrun.
  - simpl in Hrun. injection Hrun as <- <- <-.
    repeat split; try constructor; try lia; destruct pre; discriminate.
  - simpl in Hrun.
    destruct (throttle U th (call_url c) (clock + gap c) (late c))
      as [[[th1 clk1] e1]|x] eqn:Hth; simpl in Hrun; [|discriminate].
    destruct (run U th1 clk1 calls) as [[[th2 clk2] evs2]|x] eqn:Hrest;
      simpl in Hrun; [|discriminate].
    injection Hrun as <- <- <-.
    apply Forall_cons_iff in Hmono as [[Hgap Hlate] Hmono].
    destruct (throttle_inv _ _ _ _ _ _ _ _ Hth)
      as (Hdom & Henter & Hsleep & Hrec & Hclk & Hdd & Hdel & Hlast).
    destruct (IH _ _ _ _ _ Hmono Hrest)
      as (Hdoms & Hdd' & Hdel' & Hle & Hord & Hfin & Hev).
    pose proof (wait_nonneg (delay_for th (ev_domain e1)) (clock + gap c)
                  (last_request th !! ev_domain e1)) as Hw.
    fold (sleep_time th (ev_domain e1) (clock + gap c)) in Hw.
    rewrite <- Hsleep in Hw.
    repeat split.
    + constructor; [exact Hdom|exact Hdoms].
    + congruence.
    + congruence.
    + lia.
    + constructor; [lia|].
      eapply Forall_impl; [exact Hord|]. simpl. intros e He. lia.
    + intros d. rewrite Hfin, Hlast, entry_after_cons. reflexivity.
    + destruct pre as [|p pre]; simpl in H; injection H as <- Hevs.
      * unfold entry_after. simpl. rewrite Hsleep, Henter. reflexivity.
      * destruct (Hev _ _ _ Hevs) as (Hs & _ & _).
        rewrite Hs, entry_after_cons, Hlast.
        rewrite (delay_for_ext th th1) by assumption. reflexivity.
    + destruct pre as [|p pre]; simpl in H; injection H as <- Hevs.
      * lia.
      * destruct (Hev _ _ _ Hevs) as (_ & Hs & _). exact Hs.
    + destruct pre as [|p pre]; simpl in H; injection H as <- Hevs.
      * constructor.
      * destruct (Hev _ _ _ Hevs) as (_ & _ & Hpre).
        constructor; [|exact Hpre].
        rewrite Hevs in Hord. apply Forall_app in Hord as [_ Hord].
        apply Forall_cons_iff in Hord as [He _]. lia.
Qed.



(** *** C8 *)




End RateLimiterProps.

(* --------------------------------------------------------------------- *)
(** ** The source scrapers                                                *)
(* --------------------------------------------------------------------- *)

Module SourcesProps.
Import PyStr Py Settings ArticleModel Sources PyStrProps.

Section WithWeb.
Context {entry element : Type} (W : Web entry element).

(** The feed step only asks for feeds, the page step asks for at least
    one page. *)
Lemma rss_step_no_page (s : Scraper) :
  existsb is_page (snd (rss_step W s)) = false.
Proof.
  unfold rss_step. destruct (rss_feed (config s)) as [[|c feed]|];
    try reflexivity.
  unfold _scrape_rss. destruct (feedparser_parse W (c :: feed)); reflexivity.
Qed.

Lemma scrape_html_asks_page (s : Scraper) :
  existsb is_page (snd (_scrape_html W s)) = true.
Proof. unfold _scrape_html. destruct (class s); reflexivity. Qed.

(** A feed none of whose entries parses yields no article. *)
Lemma rss_step_all_invalid (s : Scraper) (c : char) (feed : str)
  (entries : list entry) :
  rss_feed (config s) = Some (c :: feed) ->
  feedparser_parse W (c :: feed) = Ok entries ->
  Forall (fun e => _parse_rss_entry W s e = None) entries ->
  fst (rss_step W s) = [].
Proof.
  intros Hfeed Hparse Hall. unfold rss_step, _scrape_rss.
  rewrite Hfeed, Hparse. simpl. unfold collect. clear Hfeed Hparse.
  induction Hall as [|e es He _ IH]; [reflexivity|].
  simpl. rewrite He. exact IH.
Qed.

Lemma max_articles_is_50 : get SETTINGS "max_articles_per_source" 50 = 50%Z.
Proof. reflexivity. Qed.

(** [scrape], case by case. *)
Lemma scrape_cases (s : Scraper) :
  scrape W s
  = match fst (rss_step W s) with
    | [] => (slice_to (fst (_scrape_html W s)) 50,
             snd (rss_step W s) ++ snd (_scrape_html W s))
    | _ :: _ => (slice_to (fst (rss_step W s)) 50, snd (rss_step W s) ++ [])
    end.
Proof.
  unfold scrape. rewrite max_articles_is_50.
  destruct (rss_step W s) as [[|a rss] sent1]; simpl.
  - destruct (_scrape_html W s) as [html sent]. reflexivity.
  - reflexivity.
Qed.

(** C4.  For every scraper (every class, every source configuration)
    and whatever the network answers: when the feed step yields at
    least one article, [scrape] returns the feed articles (the first 50
    of them) and asks for no page; the page extraction runs exactly
    when the feed step yields no article, and then [scrape] returns its
    articles (the first 50); a feed whose entries all fail validation
    is such a case; and the list returned never has more than the
    configured maximum of articles, 50. *)
Theorem scrape_rss_first (s : Scraper) :
  (fst (rss_step W s) <> [] ->
     fst (scrape W s) = firstn 50 (fst (rss_step W s))
     /\ existsb is_page (snd (scrape W s)) = false)
  /\ (existsb is_page (snd (scrape W s)) = true <-> fst (rss_step W s) = [])
  /\ (fst (rss_step W s) = [] ->
        fst (scrape W s) = firstn 50 (fst (_scrape_html W s)))
  /\ (forall c feed entries,
        rss_feed (config s) = Some (c :: feed) ->
        feedparser_parse W (c :: feed) = Ok entries ->
        Forall (fun e => _parse_rss_entry W s e = None) entries ->
        existsb is_page (snd (scrape W s)) = true
        /\ fst (scrape W s) = firstn 50 (fst (_scrape_html W s)))
  /\ (Z.of_nat (length (fst (scrape W s)))
      <= get SETTINGS "max_articles_per_source" 50)%Z.
Proof.
  rewrite scrape_cases, max_articles_is_50.
  pose proof (rss_step_no_page s) as Hrss.
  pose proof (scrape_html_asks_page s) as Hhtml.
  assert (Hcase : fst (rss_step W s) = [] ->
            existsb is_page (snd (scrape W s)) = true
            /\ fst (scrape W s) = firstn 50 (fst (_scrape_html W s))).
  { intros Hnil. rewrite scrape_cases, Hnil. simpl.
    rewrite existsb_app, Hhtml, orb_true_r. split; reflexivity. }
  destruct (fst (rss_step W s)) as [|a rss] eqn:Hstep.
  - destruct (Hcase eq_refl) as [Hp Hf]. rewrite scrape_cases, Hstep in Hp, Hf.
    simpl fst in *. simpl snd in *.
    split; [intros H; contradiction|].
    split; [split; [reflexivity|intros _; exact Hp]|].
    split; [intros _; exact Hf|].
    split; [intros c feed entries _ _ _; split; [exact Hp|exact Hf]|].
    rewrite slice_to_nonneg by lia. rewrite length_firstn. lia.
  - simpl fst. simpl snd. rewrite app_nil_r.
    split; [intros _; split; [reflexivity|exact Hrss]|].
    split; [split; [intros H; rewrite Hrss in H; discriminate|discriminate]|].
    split; [discriminate|].
    split.
    + intros c feed entries Hfeed Hparse Hall.
      rewrite (rss_step_all_invalid s c feed entries Hfeed Hparse Hall) in Hstep.
      discriminate.
    + rewrite slice_to_nonneg by lia. rewrite length_firstn. lia.
Qed.

End WithWeb.

End SourcesProps.

(* --------------------------------------------------------------------- *)
(** ** The orchestrator                                                   *)
(* --------------------------------------------------------------------- *)

Module OrchestratorProps.
Import PyStr Py ArticleModel Sources Orchestrator Samples.

Section Run.
Context {S : Type} `{Scrapes S}.

(** The loop gathers the articles of the scrapers that return and logs
    the exceptions of the others. *)
Lemma scrape_loop_spec (scrapers : list S) :
  scrape_loop scrapers = (returned scrapers, raised scrapers).
Proof.
  induction scrapers as [|s rest IH]; [reflexivity|].
  simpl. rewrite IH. unfold returned, raised. simpl.
  destruct (call_scrape s); reflexivity.
Qed.

(** A run of [scrape_all] over scrapers that were created: the
    exceptions of the scrapers go to the log, the articles of the
    others to the collection, and [stats.errors] is left as it was. *)
Lemma scrape_all_run (ks us : list S) (t0 t1 : Z) (ns : NewsScraper) :
  let c := deduplicate (add_articles (collection ns)
                          (returned ks ++ returned us)) in
  exists ns',
    scrape_all (Ok ks) (Ok us) t0 t1 ns = (Ok (articles c), ns')
    /\ collection ns' = c
    /\ errors (stats ns') = errors (stats ns)
    /\ total_articles (stats ns') = total_count c
    /\ logged ns' = logged ns ++ raised ks ++ raised us.
Proof.
  unfold scrape_all, scrape_region_news, mbind, try_except, modify_stats,
    modify_collection, log_errors, get_state, ret.
  rewrite !scrape_loop_spec. simpl.
  eexists. split; [reflexivity|]. simpl.
  rewrite <- app_assoc. repeat split.
Qed.

End Run.


End OrchestratorProps.

(* --------------------------------------------------------------------- *)
(** ** The loop of the standalone script                                  *)
(* --------------------------------------------------------------------- *)

Module StandaloneProps.
Import PyStr Py Standalone.

(** The sibling of [NewsScraper.scrape_all] in the standalone script
    does record the exception of a source: every source that raises
    adds one entry to [errors]. *)
Lemma scrape_sources_errors {Src A} (src_name : Src -> str)
  (scrape : Src -> result (list A)) (sources : list Src)
  (acc : list A * gmap (list N) Z * list exn) :
  snd (scrape_sources src_name scrape sources acc)
  = snd acc ++ flat_map (fun src => match scrape src with
                                    | Ok _ => []
                                    | Raise e => [e]
                                    end) sources.
Proof.
  revert acc. induction sources as [|src rest IH]; intros [[arts by_source] errors].
  - simpl. symmetry. apply app_nil_r.
  - simpl. rewrite IH. destruct (scrape src); simpl; [reflexivity|].
    rewrite <- app_assoc. reflexivity.
Qed.

End StandaloneProps.

(* --------------------------------------------------------------------- *)
(** ** The CSV exporter                                                   *)
(* --------------------------------------------------------------------- *)

Module CsvProps.
Import PyStr Py ArticleModel IsoFormat CsvExporter CsvReader Samples.













End CsvProps.

(* --------------------------------------------------------------------- *)
(** ** More on strings                                                    *)
(* --------------------------------------------------------------------- *)

Module PyStrMore.
Import PyStr PyStrProps.





(** Neither changes the characters that are not whitespace. *)







End PyStrMore.

(* --------------------------------------------------------------------- *)
(** ** More on articles                                                   *)
(* --------------------------------------------------------------------- *)

Module ArticleMore.
Import PyStr Py ArticleModel Samples PyStrProps PyStrMore ArticleProps.

(** *** The validators of the constructor *)




Lemma validate_region_some (v reg : str) :
  validate_region v = Some reg ->
  (reg = lit "kenya" \/ reg = lit "usa") /\ lower_is reg v = true.
Proof.
  unfold validate_region, valid_regions. cbn [List.find].
  destruct (lower_is (lit "kenya") v) eqn:Hk.
  - intros Heq. injection Heq as <-. split; [left; reflexivity|exact Hk].
  - destruct (lower_is (lit "usa") v) eqn:Hu; [|discriminate].
    intros Heq. injection Heq as <-. split; [right; reflexivity|exact Hu].
Qed.

(** The fields of a constructed article, from the data. *)
Lemma new_article_fields (now : Z) (d : ArticleData) (a : Article) :
  new_article now d = Ok a ->
  length_ok 1 500 (d_title d) = true
  /\ opt_length_ok 2000 (d_summary d) = true
  /\ validate_region (d_region d) = Some (region a)
  /\ title a = clean_field (d_title d)
  /\ summary a = option_map clean_field (d_summary d)
  /\ url a = d_url d
  /\ (truthy (d_id d) = false -> _generate_id (d_url d) (title a) = Ok (id a)).
Proof.
  unfold new_article.
  destruct (length_ok 1 500 (d_title d)); [|discriminate].
  destruct (opt_length_ok 2000 (d_summary d)); [|discriminate].
  destruct (negb (opt_length_ok 200 (d_author d))); [discriminate|].
  destruct (validate_region (d_region d)) as [reg|]; [|discriminate].
  simpl. destruct (truthy (d_id d)) eqn:Hid.
  - intros Heq. injection Heq as <-. simpl. repeat split. discriminate.
  - destruct (_generate_id (d_url d) (clean_field (d_title d))) as [i|e] eqn:Hg;
      simpl; [|discriminate].
    intros Heq. injection Heq as <-. simpl. repeat split. intros _. exact Hg.
Qed.




(** *** The shape of a generated identifier *)

Lemma length_le_bytes (n : nat) (x : N) : length (MD5.le_bytes n x) = n.
Proof.
  revert x. induction n as [|n IH]; intros x; [reflexivity|].
  simpl. rewrite IH. reflexivity.
Qed.

Lemma le_bytes_small (n : nat) (x : N) :
  Forall (fun b => b < 256) (MD5.le_bytes n x).
Proof.
  revert x. induction n as [|n IH]; intros x; [constructor|].
  simpl. constructor; [|apply IH].
  apply N.mod_lt. discriminate.
Qed.

Lemma digest_bytes (msg : list N) :
  length (MD5.digest msg) = 16%nat /\ Forall (fun b => b < 256) (MD5.digest msg).
Proof.
  unfold MD5.digest.
  destruct (fold_left MD5.block _ _) as [[[a b] c] d].
  split.
  - rewrite !length_app, !length_le_bytes. reflexivity.
  - repeat (apply Forall_app; split); apply le_bytes_small.
Qed.

Lemma hex_digit_lower (x : N) : x < 16 -> is_hex_lower (MD5.hex_digit x) = true.
Proof.
  intros Hx. unfold MD5.hex_digit, is_hex_lower.
  destruct (N.ltb_spec x 10).
  - apply orb_true_iff. left. apply andb_true_iff.
    split; apply N.leb_le; lia.
  - apply orb_true_iff. right. apply andb_true_iff.
    split; apply N.leb_le; lia.
Qed.

Lemma hexdigest_shape (msg : list N) :
  length (MD5.hexdigest msg) = 32%nat
  /\ forallb is_hex_lower (MD5.hexdigest msg) = true.
Proof.
  unfold MD5.hexdigest. destruct (digest_bytes msg) as [Hlen Hsmall].
  revert Hlen Hsmall. generalize (MD5.digest msg) as bs. intros bs.
  assert (Hgen : forall l, Forall (fun b => b < 256) l ->
            length (flat_map (fun b => [MD5.hex_digit (b / 16);
                                        MD5.hex_digit (b mod 16)]) l)
            = (2 * length l)%nat
            /\ forallb is_hex_lower
                 (flat_map (fun b => [MD5.hex_digit (b / 16);
                                      MD5.hex_digit (b mod 16)]) l) = true).
  { induction 1 as [|b l Hb _ [IH1 IH2]]; [split; reflexivity|].
    simpl. rewrite IH1, IH2. split; [lia|].
    rewrite !hex_digit_lower; [reflexivity| |].
    - apply N.mod_lt. discriminate.
    - apply N.Div0.div_lt_upper_bound. lia. }
  intros Hlen Hsmall. destruct (Hgen bs Hsmall) as [H1 H2].
  rewrite H1, Hlen. split; [reflexivity|exact H2].
Qed.

Lemma forallb_firstn {A} (f : A -> bool) (n : nat) (l : list A) :
  forallb f l = true -> forallb f (firstn n l) = true.
Proof.
  revert n. induction l as [|x l IH]; intros [|n]; try reflexivity.
  simpl. intros H. apply andb_true_iff in H as [Hx Hl].
  rewrite Hx. apply IH, Hl.
Qed.

(** X2.  The identifier the constructor generates (when none is given)
    is made of 16 lower-case hexadecimal digits. *)
Theorem generated_id_shape (now : Z) (d : ArticleData) (a : Article) :
  truthy (d_id d) = false ->
  new_article now d = Ok a ->
  length (id a) = 16%nat /\ forallb is_hex_lower (id a) = true.
Proof.
  intros Hid Hnew.
  destruct (new_article_fields _ _ _ Hnew) as (_ & _ & _ & _ & _ & _ & Hgen).
  specialize (Hgen Hid). unfold _generate_id in Hgen.
  destruct (encode (d_url d ++ title a)) as [bytes|]; [|discriminate].
  injection Hgen as <-.
  destruct (hexdigest_shape bytes) as [Hlen Hhex].
  split.
  - rewrite length_firstn, Hlen. reflexivity.
  - apply forallb_firstn, Hhex.
Qed.

Lemma generated_id_shape_witness :
  truthy (d_id untidy) = false
  /\ match new_article 0 untidy with
     | Ok a => length (id a) = 16%nat /\ forallb is_hex_lower (id a) = true
     | Raise _ => False
     end.
Proof.
  split; [reflexivity|].
  destruct (new_article 0 untidy) as [a|e] eqn:Hnew;
    [|vm_compute in Hnew; discriminate].
  exact (generated_id_shape 0 untidy a eq_refl Hnew).
Defined.

(** *** Collections without duplicates *)

Lemma ids_app (l1 l2 : list Article) : ids (l1 ++ l2) = ids l1 ++ ids l2.
Proof. apply List.map_app. Qed.

Lemma contains_false_not_in (l : list Article) (a : Article) :
  contains l a = false <-> ~ In (id a) (ids l).
Proof.
  unfold contains, ids. induction l as [|x l IH]; simpl.
  - split; [intros _ []|reflexivity].
  - unfold article_eqb. split.
    + intros H. apply orb_false_iff in H as [Hx Hl].
      apply bool_decide_eq_false in Hx. intros [Heq|Hin]; [congruence|].
      apply IH in Hl. contradiction.
    + intros H. apply orb_false_iff. split.
      * apply bool_decide_eq_false. intros Heq. apply H. left. exact Heq.
      * apply IH. intros Hin. apply H. right. exact Hin.
Qed.

Lemma contains_true_in (l : list Article) (a : Article) :
  contains l a = true <-> In (id a) (ids l).
Proof.
  unfold contains, ids. induction l as [|x l IH]; simpl.
  - split; [discriminate|intros []].
  - unfold article_eqb. rewrite orb_true_iff, IH, bool_decide_eq_true.
    tauto.
Qed.

(** [add_article] and [add_articles] keep a collection free of
    duplicates, never drop an article, and add every identifier. *)
Lemma add_article_nodup (c : ArticleCollection) (a : Article) :
  List.NoDup (ids (articles c)) ->
  List.NoDup (ids (articles (add_article c a))).
Proof.
  intros Hnd. rewrite articles_add_article.
  destruct (contains (articles c) a) eqn:Hc; [exact Hnd|].
  rewrite ids_app. simpl. apply contains_false_not_in in Hc.
  apply List.NoDup_app; repeat split.
  - exact Hnd.
  - constructor; [intros []|constructor].
  - intros x Hx [<-|[]]. contradiction.
Qed.

Lemma add_articles_nodup (l : list Article) (c : ArticleCollection) :
  List.NoDup (ids (articles c)) ->
  List.NoDup (ids (articles (add_articles c l))).
Proof.
  revert c. induction l as [|a l IH]; intros c Hnd; [exact Hnd|].
  apply (IH (add_article c a)), add_article_nodup, Hnd.
Qed.

Lemma add_articles_ids (l : list Article) (c : ArticleCollection) (i : str) :
  In i (ids (articles (add_articles c l)))
  <-> In i (ids (articles c)) \/ In i (ids l).
Proof.
  revert c. induction l as [|a l IH]; intros c.
  - simpl. tauto.
  - change (add_articles c (a :: l)) with (add_articles (add_article c a) l).
    rewrite IH, articles_add_article.
    destruct (contains (articles c) a) eqn:Hc.
    + apply contains_true_in in Hc. simpl. split.
      * tauto.
      * intros [H|[<-|H]]; tauto.
    + rewrite ids_app, in_app_iff. simpl. tauto.
Qed.

Lemma add_articles_prefix (l : list Article) (c : ArticleCollection) :
  exists more, articles (add_articles c l) = articles c ++ more
               /\ (length more <= length l)%nat.
Proof.
  revert c. induction l as [|a l IH]; intros c.
  - exists []. split; [symmetry; apply app_nil_r|simpl; lia].
  - change (add_articles c (a :: l)) with (add_articles (add_article c a) l).
    destruct (IH (add_article c a)) as [more [Heq Hlen]].
    rewrite Heq, articles_add_article.
    destruct (contains (articles c) a).
    + exists more. split; [reflexivity|simpl; lia].
    + exists (a :: more). rewrite <- app_assoc. split; [reflexivity|simpl; lia].
Qed.

(** The loop of [deduplicate] on a list without duplicates, none of
    them seen before, keeps the whole list. *)
Lemma dedup_loop_nodup (l : list Article) (seen : gset (list N)) :
  List.NoDup (ids l) ->
  (forall a, In a l -> id a ∉ seen) ->
  dedup_loop seen [] l = l.
Proof.
  revert seen. induction l as [|a l IH]; intros seen Hnd Hseen; [reflexivity|].
  simpl. rewrite bool_decide_eq_false_2 by (apply Hseen; left; reflexivity).
  rewrite dedup_loop_app. simpl. f_equal.
  simpl in Hnd. apply List.NoDup_cons_iff in Hnd as [Hnotin Hnd].
  apply IH; [exact Hnd|].
  intros b Hb Hin. apply elem_of_union in Hin as [Hin|Hin].
  - apply elem_of_singleton in Hin. apply Hnotin. rewrite <- Hin.
    apply List.in_map, Hb.
  - apply (Hseen b); [right; exact Hb|exact Hin].
Qed.

(** The result of the loop: no duplicates, nothing that was seen, a
    sublist of the input. *)
Lemma dedup_loop_result (l : list Article) (seen : gset (list N)) :
  List.NoDup (ids (dedup_loop seen [] l))
  /\ (forall i, In i (ids (dedup_loop seen [] l)) <-> In i (ids l) /\ i ∉ seen)
  /\ sublist (dedup_loop seen [] l) l.
Proof.
  revert seen. induction l as [|a l IH]; intros seen.
  - simpl. split; [constructor|]. split; [intros i; tauto|constructor].
  - simpl. destruct (bool_decide (id a ∈ seen)) eqn:Hseen.
    + apply bool_decide_eq_true in Hseen.
      destruct (IH seen) as (Hnd & Hin & Hsub).
      split; [exact Hnd|]. split; [|apply sublist_cons, Hsub].
      intros i. rewrite Hin. split; [tauto|].
      intros [[<-|Hi] Hn]; [contradiction|tauto].
    + apply bool_decide_eq_false in Hseen.
      rewrite dedup_loop_app. simpl.
      destruct (IH ({[id a]} ∪ seen)) as (Hnd & Hin & Hsub).
      split; [|split; [|apply sublist_skip, Hsub]].
      * constructor; [|exact Hnd].
        intros Ha. apply Hin in Ha as [_ Hn]. apply Hn.
        apply elem_of_union. left. apply elem_of_singleton. reflexivity.
      * intros i. rewrite Hin. rewrite elem_of_union, elem_of_singleton.
        split.
        -- intros [<-|[Hi Hn]]; [tauto|]. split; [tauto|]. tauto.
        -- intros [[<-|Hi] Hn]; [tauto|].
           destruct (decide (i = id a)) as [->|Hne]; [tauto|]. right. tauto.
Qed.

(** X3.  [deduplicate] leaves no two articles with the same identifier,
    keeps every identifier that was there and the order of the articles
    it keeps, sets [total_count] to their number, and changes nothing
    when it is run again. *)
Theorem deduplicate_spec (c : ArticleCollection) :
  List.NoDup (ids (articles (deduplicate c)))
  /\ (forall i, In i (ids (articles (deduplicate c))) <-> In i (ids (articles c)))
  /\ sublist (articles (deduplicate c)) (articles c)
  /\ total_count (deduplicate c)
     = Z.of_nat (length (articles (deduplicate c)))
  /\ deduplicate (deduplicate c) = deduplicate c.
Proof.
  destruct (dedup_loop_result (articles c) ∅) as (Hnd & Hin & Hsub).
  unfold deduplicate at 1 2 3 4 5. simpl articles.
  split; [exact Hnd|].
  split; [intros i; rewrite Hin; split; [tauto|]; intros H; split;
          [exact H|apply not_elem_of_empty]|].
  split; [exact Hsub|]. split; [reflexivity|].
  unfold deduplicate. simpl.
  rewrite (dedup_loop_nodup (dedup_loop ∅ [] (articles c)) ∅ Hnd);
    [reflexivity|].
  intros a _. apply not_elem_of_empty.
Qed.

(** X4.  In a collection without duplicate identifiers whose
    [total_count] is right, [add_articles] keeps both properties, keeps
    the articles already there in place and adds at most the given
    ones, holds exactly the old and the given identifiers afterwards,
    and a [deduplicate] after it changes nothing (as in [scrape_all]). *)
Theorem add_articles_spec (c : ArticleCollection) (l : list Article) :
  List.NoDup (ids (articles c)) ->
  total_count c = Z.of_nat (length (articles c)) ->
  List.NoDup (ids (articles (add_articles c l)))
  /\ (forall i, In i (ids (articles (add_articles c l)))
                <-> In i (ids (articles c)) \/ In i (ids l))
  /\ (exists more, articles (add_articles c l) = articles c ++ more
                   /\ (length more <= length l)%nat)
  /\ deduplicate (add_articles c l) = add_articles c l.
Proof.
  intros Hnd Hcount.
  pose proof (add_articles_nodup l c Hnd) as Hnd'.
  split; [exact Hnd'|]. split; [apply add_articles_ids|].
  split; [apply add_articles_prefix|].
  unfold deduplicate.
  rewrite (dedup_loop_nodup _ ∅ Hnd') by (intros a _; apply not_elem_of_empty).
  pose proof (total_count_add_articles l c Hcount) as Hc.
  destruct (add_articles c l) as [arts tc sa ss rg]. simpl in *.
  unfold set_articles. simpl. rewrite Hc. reflexivity.
Qed.

Lemma add_articles_spec_witness :
  List.NoDup (ids (articles (empty_collection 0)))
  /\ total_count (empty_collection 0)
     = Z.of_nat (length (articles (empty_collection 0)))
  /\ deduplicate (add_articles (empty_collection 0)
                    (first_scrape ++ second_scrape ++ page_article "2"))
     = add_articles (empty_collection 0)
         (first_scrape ++ second_scrape ++ page_article "2")
  /\ length (articles (add_articles (empty_collection 0)
               (first_scrape ++ second_scrape ++ page_article "2"))) = 2%nat.
Proof.
  assert (Hnd : List.NoDup (ids (articles (empty_collection 0)))) by constructor.
  split; [exact Hnd|]. split; [reflexivity|]. split.
  - exact (proj2 (proj2 (proj2
      (add_articles_spec (empty_collection 0)
         (first_scrape ++ second_scrape ++ page_article "2") Hnd eq_refl)))).
  - vm_compute. reflexivity.
Defined.

End ArticleMore.

(* --------------------------------------------------------------------- *)
(** ** More on the collection                                            *)
(* --------------------------------------------------------------------- *)

Module CollectionMore.
Import PyStr Py ArticleModel Samples.

Lemma filter_region_split (l : list Article) :
  (forall a, In a l -> region a = lit "kenya" \/ region a = lit "usa") ->
  (length (List.filter (fun a => bool_decide (region a = lit "kenya")) l)
   + length (List.filter (fun a => bool_decide (region a = lit "usa")) l)
   = length l)%nat.
Proof.
  induction l as [|a l IH]; intros Hreg; [reflexivity|].
  cbn [List.filter].
  assert (IH' := IH (fun x Hx => Hreg x (or_intror Hx))).
  destruct (Hreg a (or_introl eq_refl)) as [Ha|Ha]; rewrite Ha.
  - rewrite bool_decide_eq_true_2 by reflexivity.
    rewrite bool_decide_eq_false_2 by discriminate. cbn [length]. lia.
  - rewrite bool_decide_eq_false_2 by discriminate.
    rewrite bool_decide_eq_true_2 by reflexivity. cbn [length]. lia.
Qed.

Lemma filter_none {A} (f : A -> bool) (l : list A) :
  (forall a, In a l -> f a = false) -> List.filter f l = [].
Proof.
  induction l as [|a l IH]; intros Hf; [reflexivity|].
  cbn [List.filter]. rewrite (Hf a (or_introl eq_refl)).
  apply IH. intros x Hx. apply Hf. now right.
Qed.

(** X8.  In a collection whose articles all came out of the
    constructor, the articles [get_by_region] gives for [kenya] and for
    [usa] together are as many as the collection holds, and every other
    region name (the comparison is exact, so [Kenya] too) gives the
    empty list. *)
Theorem get_by_region_partition (c : ArticleCollection) :
  (forall a, In a (articles c) -> exists now d, new_article now d = Ok a) ->
  (length (get_by_region c (lit "kenya"))
   + length (get_by_region c (lit "usa")) = length (articles c))%nat
  /\ (forall r, r <> lit "kenya" -> r <> lit "usa" -> get_by_region c r = []).
Proof.
  intros Hbuilt.
  assert (Hreg : forall a, In a (articles c) ->
                   region a = lit "kenya" \/ region a = lit "usa").
  { intros a Ha. destruct (Hbuilt a Ha) as (now & d & Hnew).
    destruct (ArticleMore.new_article_fields now d a Hnew)
      as (_ & _ & Hv & _).
    apply (ArticleMore.validate_region_some _ _ Hv). }
  split; [apply filter_region_split, Hreg|].
  intros r Hk Hu. apply filter_none. intros a Ha.
  apply bool_decide_eq_false_2. destruct (Hreg a Ha); congruence.
Qed.

Lemma get_by_region_partition_witness :
  (forall a, In a (articles (add_articles (empty_collection 0)
                              (page_article "1" ++ page_article "2"))) ->
     exists now d, new_article now d = Ok a)
  /\ get_by_region (add_articles (empty_collection 0)
                      (page_article "1" ++ page_article "2")) (lit "Kenya")
     = [].
Proof.
  assert (Hbuilt : forall a,
            In a (articles (add_articles (empty_collection 0)
                              (page_article "1" ++ page_article "2"))) ->
            exists now d, new_article now d = Ok a).
  { intros a Ha. vm_compute in Ha. destruct Ha as [<-|[<-|[]]].
    - exists 0%Z, (page_data "1" None). vm_compute. reflexivity.
    - exists 0%Z, (page_data "2" None). vm_compute. reflexivity. }
  split; [exact Hbuilt|].
  apply (proj2 (get_by_region_partition _ Hbuilt)); discriminate.
Defined.

End CollectionMore.

(* --------------------------------------------------------------------- *)
(** ** File names                                                        *)
(* --------------------------------------------------------------------- *)

Module SanitizeProps.
Import PyStr Validators.

Lemma replace_char_filter (c : N) (s : str) :
  replace [c] [] s = List.filter (fun x => negb (c =? x)) s.
Proof.
  unfold replace. induction s as [|x s IH]; [reflexivity|].
  cbn [replace_from startswith length Nat.sub List.filter].
  rewrite andb_true_r. destruct (c =? x); cbn [negb app]; rewrite IH; reflexivity.
Qed.

Lemma replace_space (s : str) :
  replace (lit " ") (lit "_") s
  = List.map (fun x => if x =? 32 then 95 else x) s.
Proof.
  unfold replace. change (lit " ") with [32]. change (lit "_") with [95].
  induction s as [|x s IH]; [reflexivity|].
  cbn [replace_from startswith length Nat.sub List.map].
  rewrite andb_true_r, (N.eqb_sym 32 x).
  destruct (x =? 32); cbn [app]; rewrite IH; reflexivity.
Qed.

Lemma fold_replace_filter (cs : str) (s : str) :
  fold_left (fun f c => replace [c] [] f) cs s
  = List.filter (fun x => negb (existsb (fun c => c =? x) cs)) s.
Proof.
  revert s. induction cs as [|c cs IH]; intros s.
  - cbn. induction s as [|x s IHs]; [reflexivity|]. cbn. now rewrite <- IHs.
  - cbn [fold_left existsb]. rewrite IH, replace_char_filter.
    induction s as [|x s IHs]; [reflexivity|].
    cbn [List.filter]. destruct (c =? x); cbn [negb orb List.filter].
    + exact IHs.
    + destruct (negb (existsb (fun c0 => c0 =? x) cs)); now rewrite IHs.
Qed.

Lemma cut_firstn (s : str) :
  (if (len s >? 200)%Z then slice_to s 200 else s) = firstn 200 s.
Proof.
  unfold len, slice_to. change (200 <? 0)%Z with false. cbv iota.
  change (Z.to_nat 200) with 200%nat.
  destruct (Z.gtb_spec (Z.of_nat (length s)) 200); [reflexivity|].
  symmetry. apply firstn_all2. lia.
Qed.

(** The function in closed form: drop the nine characters, turn each
    space into an underscore, keep the first 200. *)
Lemma sanitize_filename_eq (f : str) :
  sanitize_filename f
  = firstn 200
      (List.map (fun x => if x =? 32 then 95 else x)
         (List.filter (fun x => negb (existsb (fun c => c =? x) invalid_chars))
            f)).
Proof.
  unfold sanitize_filename. cbv zeta.
  rewrite cut_firstn, replace_space, fold_replace_filter. reflexivity.
Qed.

Lemma clean_fixed (f : str) :
  (forall c, In c f -> ~ In c invalid_chars /\ c <> 32) ->
  List.map (fun x => if x =? 32 then 95 else x)
    (List.filter (fun x => negb (existsb (fun c => c =? x) invalid_chars)) f)
  = f.
Proof.
  induction f as [|x f IH]; intros H; [reflexivity|].
  cbn [List.filter].
  destruct (H x (or_introl eq_refl)) as [Hx H32].
  destruct (existsb (fun c => c =? x) invalid_chars) eqn:E.
  - exfalso. apply Hx. apply existsb_exists in E as (c & Hc & Hcx).
    apply N.eqb_eq in Hcx. now subst.
  - cbn [negb List.map]. apply N.eqb_neq in H32. rewrite H32.
    f_equal. apply IH. intros c Hc. apply H. now right.
Qed.

Lemma in_firstn {A} (n : nat) (l : list A) (x : A) :
  In x (firstn n l) -> In x l.
Proof.
  revert l. induction n as [|n IH]; intros [|y l]; cbn; try tauto.
  intros [H|H]; [now left|right; now apply IH].
Qed.

Lemma sanitized_chars (f : str) (c : N) :
  In c (sanitize_filename f) -> ~ In c invalid_chars /\ c <> 32.
Proof.
  rewrite sanitize_filename_eq. intros Hc.
  apply in_firstn in Hc.
  apply in_map_iff in Hc as (x & Hx & Hin).
  apply filter_In in Hin as [_ Hin].
  destruct (N.eqb_spec x 32).
  - subst c. split; [|discriminate].
    vm_compute. intuition discriminate.
  - subst c. split; [|assumption]. intros Hbad.
    apply negb_true_iff in Hin.
    assert (existsb (fun c => c =? x) invalid_chars = true); [|congruence].
    apply existsb_exists. exists x. split; [assumption|apply N.eqb_refl].
Qed.

(** X5.  For every text, [sanitize_filename] returns a text of at most
    200 characters that holds none of the nine characters of
    [invalid_chars] and no space, and that is no longer than the input;
    sanitising twice is sanitising once; and a text that already has
    none of these characters and at most 200 characters is returned as
    it is. *)
Theorem sanitize_filename_spec (f : str) :
  (forall c, In c (sanitize_filename f) -> ~ In c invalid_chars /\ c <> 32)
  /\ (len (sanitize_filename f) <= 200)%Z
  /\ (length (sanitize_filename f) <= length f)%nat
  /\ sanitize_filename (sanitize_filename f) = sanitize_filename f
  /\ ((forall c, In c f -> ~ In c invalid_chars /\ c <> 32) ->
      (len f <= 200)%Z -> sanitize_filename f = f).
Proof.
  assert (Hfix : forall g : str,
            (forall c, In c g -> ~ In c invalid_chars /\ c <> 32) ->
            (len g <= 200)%Z -> sanitize_filename g = g).
  { intros g Hg Hlen. rewrite sanitize_filename_eq, clean_fixed by assumption.
    apply firstn_all2. unfold len in Hlen. lia. }
  assert (Hlen : (len (sanitize_filename f) <= 200)%Z).
  { rewrite sanitize_filename_eq. unfold len. rewrite length_firstn. lia. }
  split; [apply sanitized_chars|]. split; [exact Hlen|]. split.
  - rewrite sanitize_filename_eq, length_firstn, length_map.
    etransitivity; [apply Nat.le_min_r|]. apply List.filter_length_le.
  - split; [|apply Hfix]. apply Hfix; [apply sanitized_chars|exact Hlen].
Qed.

End SanitizeProps.

(* --------------------------------------------------------------------- *)
(** ** More on URLs                                                      *)
(* --------------------------------------------------------------------- *)

Module ValidatorsMore.
Import PyStr Py Regex PyTime Libs Validators.

(** ** [normalize_url]: the result *)

Lemma startswith_split (p s : str) :
  startswith p s = true -> s = p ++ skipn (length p) s.
Proof.
  revert s. induction p as [|a p IH]; intros [|b s] H; try reflexivity;
    try discriminate.
  cbn in H. apply andb_true_iff in H as [Hab H]. apply N.eqb_eq in Hab.
  subst b. cbn. f_equal. now apply IH.
Qed.

Lemma force_https_not_http (u : str) :
  startswith (lit "http://") (force_https u) = false.
Proof.
  unfold force_https. destruct (startswith (lit "http://") u) eqn:H.
  - reflexivity.
  - exact H.
Qed.

Lemma last_app_cons {A} (p : list A) (x : A) (r : list A) (d e : A) :
  List.last (p ++ x :: r) d = List.last (x :: r) e.
Proof.
  induction p as [|y p IH].
  - cbn [app]. revert x. induction r as [|z r IHr]; intros x; [reflexivity|].
    change (List.last (z :: r) d = List.last (z :: r) e). apply IHr.
  - cbn [app]. destruct (p ++ x :: r) eqn:E.
    + destruct p; discriminate.
    + rewrite <- IH. reflexivity.
Qed.

Lemma trimmed_force_https (u : str) :
  trimmed u = true -> trimmed (force_https u) = true.
Proof.
  intros Hu. unfold force_https.
  destruct (startswith (lit "http://") u) eqn:H; [|exact Hu].
  apply startswith_split in H.
  change (length (lit "http://")) with 7%nat in H.
  unfold slice_from. change (7 <? 0)%Z with false. cbv iota.
  change (Z.to_nat 7) with 7%nat.
  destruct (skipn 7 u) as [|x r] eqn:Hr; [reflexivity|].
  rewrite H in Hu.
  change (lit "http://" ++ x :: r) with (104 :: (List.tl (lit "http://") ++ x :: r)) in Hu.
  change (lit "https://" ++ x :: r) with (104 :: (List.tl (lit "https://") ++ x :: r)).
  unfold trimmed in *. apply andb_true_iff in Hu as [_ Hu].
  apply andb_true_iff. split; [reflexivity|].
  change (104 :: (List.tl (lit "https://") ++ x :: r))
    with (lit "https://" ++ x :: r).
  change (104 :: (List.tl (lit "http://") ++ x :: r))
    with (lit "http://" ++ x :: r) in Hu.
  rewrite (last_app_cons _ _ _ _ 104) in Hu.
  rewrite (last_app_cons _ _ _ _ 104). exact Hu.
Qed.

Lemma rev_last (c : char) (s : str) (d : char) :
  exists t, rev (c :: s) = List.last (c :: s) d :: t.
Proof.
  destruct (exists_last (l := c :: s)) as (s' & x & E); [discriminate|].
  rewrite E, rev_app_distr, List.last_last. cbn. eauto.
Qed.

Lemma strip_trimmed (s : str) : trimmed s = true -> strip s = s.
Proof.
  destruct s as [|c s]; [reflexivity|].
  unfold trimmed. intros H. apply andb_true_iff in H as [Hc Hl].
  apply negb_true_iff in Hc, Hl.
  unfold strip. cbn [lstrip]. rewrite Hc. unfold rstrip.
  destruct (rev_last c s c) as (t & E). rewrite E.
  cbn [lstrip]. rewrite Hl, <- E. apply rev_involutive.
Qed.

(** X6.  Whatever the URL, the base and the behaviour of [urljoin], a
    URL that [normalize_url] returns never starts with [http://]; and
    when no base was given and the result is not empty, normalising the
    result again (without a base) returns it unchanged. *)
Theorem normalize_url_result (U : UrlLib) (url base : option str) (r : str) :
  normalize_url U url base = Ok (Some r) ->
  startswith (lit "http://") r = false
  /\ (base = None -> r <> [] -> normalize_url U (Some r) None = Ok (Some r)).
Proof.
  intros H. destruct url as [[|c u]|]; try discriminate.
  unfold normalize_url in H. cbv zeta in H.
  split.
  - destruct (match base with
              | Some (b :: base0) =>
                  if negb (has_http_prefix (strip (c :: u)))
                  then urljoin U (b :: base0) (strip (c :: u))
                  else Ok (strip (c :: u))
              | _ => Ok (strip (c :: u))
              end) as [j|e]; [|discriminate].
    cbn in H. injection H as <-. apply force_https_not_http.
  - intros -> Hr.
    change (Ok (Some (force_https (strip (c :: u)))) = Ok (Some r)) in H.
    injection H as <-.
    pose proof (force_https_not_http (strip (c :: u))) as Hn.
    assert (Ht : trimmed (force_https (strip (c :: u))) = true)
      by (apply trimmed_force_https, PyStrProps.trimmed_strip).
    revert Hr Hn Ht. generalize (force_https (strip (c :: u))).
    intros [|x r] Hr Hn Ht; [congruence|].
    unfold normalize_url. cbv zeta. rewrite (strip_trimmed _ Ht).
    cbn [bind]. unfold force_https. rewrite Hn. reflexivity.
Qed.

Lemma normalize_url_result_witness :
  normalize_url UrllibRef.urllib (Some (lit " http://example.com/a "))
    None
  = Ok (Some (lit "https://example.com/a"))
  /\ startswith (lit "http://") (lit "https://example.com/a") = false
  /\ normalize_url UrllibRef.urllib (Some (lit "https://example.com/a")) None
     = Ok (Some (lit "https://example.com/a")).
Proof.
  assert (H : normalize_url UrllibRef.urllib
                (Some (lit " http://example.com/a ")) None
              = Ok (Some (lit "https://example.com/a")))
    by (vm_compute; reflexivity).
  split; [exact H|].
  destruct (normalize_url_result UrllibRef.urllib _ _ _ H) as [H1 H2].
  split; [exact H1|]. apply H2; [reflexivity|discriminate].
Defined.

End ValidatorsMore.

(* --------------------------------------------------------------------- *)
(** ** Relative dates                                                    *)
(* --------------------------------------------------------------------- *)

Module ValidatorsDates.
Import PyStr Py Regex PyTime Libs Validators.
Local Open Scope Z_scope.










End ValidatorsDates.

(* --------------------------------------------------------------------- *)
(** ** More on the throttler                                             *)
(* --------------------------------------------------------------------- *)

Module RateLimiterMore.
Import PyStr Py Libs RateLimiter Samples.
Local Open Scope Z_scope.

Lemma last_record_in (d : str) (evs : list event) (t : Z) :
  last_record d evs = Some t ->
  exists p, In p evs /\ ev_domain p = d /\ ev_record p = t.
Proof.
  induction evs as [|e evs IH]; [discriminate|].
  simpl. destruct (last_record d evs) as [t'|].
  - intros Heq. injection Heq as ->.
    destruct (IH eq_refl) as (p & Hin & Hp). exists p. split; [now right|exact Hp].
  - destruct (bool_decide (ev_domain e = d)) eqn:Hd; [|discriminate].
    apply bool_decide_eq_true in Hd. intros Heq. injection Heq as <-.
    exists e. split; [now left|split; [exact Hd|reflexivity]].
Qed.

Lemma wait_bounded (delay now last : Z) :
  last <= now -> 0 <= wait delay now (Some last) <= Z.max 0 delay.
Proof.
  intros Hle. unfold wait. cbv zeta.
  destruct (Z.ltb_spec (now - last) delay); lia.
Qed.

(** X15.  With a clock that does not run backwards and entries that
    are not in the future, a call of [throttle] never sleeps longer
    than the delay of its domain, and not at all when the delay is not
    positive; and the first call for a domain without an entry does not
    sleep. *)
Theorem throttle_sleep_bounded (U : UrlLib) (th0 thN : DomainThrottler)
  (clock0 clockN : Z) (calls : list call) (evs : list event) :
  monotone calls ->
  (forall d t, last_request th0 !! d = Some t -> t <= clock0) ->
  run U th0 clock0 calls = Ok (thN, clockN, evs) ->
  Forall (fun e => 0 <= ev_sleep e <= Z.max 0 (delay_for th0 (ev_domain e)))
         evs
  /\ (forall pre e post, evs = pre ++ e :: post ->
        last_request th0 !! ev_domain e = None ->
        Forall (fun p => ev_domain p <> ev_domain e) pre ->
        ev_sleep e = 0).
Proof.
  intros Hmono Hinit Hrun.
  destruct (RateLimiterProps.run_inv U calls _ _ _ _ _ Hmono Hrun)
    as (_ & _ & _ & _ & Hord & _ & Hev).
  split.
  - apply List.Forall_forall. intros e He.
    apply in_split in He as (pre & post & ->).
    destruct (Hev pre e post eq_refl) as (Hsleep & _ & Hpre).
    rewrite Hsleep.
    destruct (entry_after (last_request th0) pre (ev_domain e))
      as [last|] eqn:Hentry.
    + apply wait_bounded. unfold entry_after in Hentry.
      destruct (last_record (ev_domain e) pre) as [t|] eqn:Hlast.
      * injection Hentry as ->.
        apply last_record_in in Hlast as (p & Hin & _ & <-).
        exact (proj1 (List.Forall_forall _ _) Hpre p Hin).
      * apply Hinit in Hentry.
        apply List.Forall_forall with (x := e) in Hord;
          [lia|apply in_elt].
    + simpl. lia.
  - intros pre e post Heq Hnone Hother.
    destruct (Hev pre e post Heq) as (Hsleep & _).
    rewrite Hsleep, (RateLimiterProps.entry_after_other _ _ _ Hother), Hnone.
    reflexivity.
Qed.

Lemma throttle_sleep_bounded_witness :
  monotone sample_calls
  /\ match run UrllibRef.urllib (new_throttler 2) 100 sample_calls with
     | Ok (thN, clockN, evs) =>
         List.map ev_sleep evs = [0; 0; 1]
         /\ Forall (fun e => 0 <= ev_sleep e
                             <= Z.max 0 (delay_for (new_throttler 2)
                                           (ev_domain e))) evs
     | Raise _ => False
     end.
Proof.
  assert (Hmono : monotone sample_calls).
  { repeat constructor; simpl; lia. }
  split; [exact Hmono|].
  destruct (run UrllibRef.urllib (new_throttler 2) 100 sample_calls)
    as [[[thN clockN] evs]|x] eqn:Hrun; [|vm_compute in Hrun; discriminate].
  split.
  - vm_compute in Hrun. injection Hrun as _ _ <-. reflexivity.
  - refine (proj1 (throttle_sleep_bounded UrllibRef.urllib (new_throttler 2)
                     thN 100 clockN sample_calls evs Hmono _ Hrun)).
    intros d t Hd. simpl in Hd. rewrite lookup_empty in Hd. discriminate.
Defined.

End RateLimiterMore.

(* --------------------------------------------------------------------- *)
(** ** More on the source scrapers                                       *)
(* --------------------------------------------------------------------- *)

Module SourcesMore.
Import PyStr Py Settings ArticleModel Sources.

Section WithWeb.
Context {entry element : Type} (W : Web entry element).

Lemma length_collect {A} (parse : A -> option Article) (items : list A) :
  (length (collect parse items) <= length items)%nat.
Proof.
  unfold collect. induction items as [|x items IH]; [reflexivity|].
  cbn. destruct (parse x); cbn; lia.
Qed.

Lemma length_scrape_page (s : Scraper) (page selector : str) (cap : Z) :
  (0 <= cap)%Z ->
  (length (scrape_page W s page selector cap) <= Z.to_nat cap)%nat.
Proof.
  intros Hcap. unfold scrape_page.
  destruct (_fetch_page W page) as [[[|h html]|]|]; cbn [length]; try lia.
  destruct (select W (h :: html) selector) as [elements|]; cbn [length];
    try lia.
  etransitivity; [apply length_collect|].
  rewrite PyStrProps.slice_to_nonneg by exact Hcap.
  rewrite length_firstn. lia.
Qed.

(** X9.  Whatever the network answers, the page step [_scrape_html]
    of a scraper yields at most 30 articles, 45 for the Nation Africa
    scraper, so the cut of [scrape] at [max_articles_per_source] leaves
    its list as it is; it asks for at least one and at most three
    pages, each at an address that starts with the base URL of the
    source. *)
Theorem scrape_html_bounds (s : Scraper) :
  (length (fst (_scrape_html W s))
   <= match class s with
      | NationAfricaScraper => 45
      | _ => 30
      end)%nat
  /\ slice_to (fst (_scrape_html W s))
       (get SETTINGS "max_articles_per_source" 50)
     = fst (_scrape_html W s)
  /\ (1 <= length (snd (_scrape_html W s)) <= 3)%nat
  /\ Forall (fun r => exists path,
                        r = GetPage (Settings.url (config s) ++ path))
       (snd (_scrape_html W s)).
Proof.
  assert (Hlen : (length (fst (_scrape_html W s))
                  <= match class s with
                     | NationAfricaScraper => 45
                     | _ => 30
                     end)%nat).
  { unfold _scrape_html. cbv zeta.
    destruct (class s); cbn [fst flat_map];
      rewrite ?length_app; cbn [length];
      repeat match goal with
      | |- context [scrape_page W s ?p ?sel ?cap] =>
          let Hp := fresh "Hp" in
          pose proof (length_scrape_page s p sel cap ltac:(lia)) as Hp;
          generalize dependent (scrape_page W s p sel cap); intros
      end; cbn in *; lia. }
  split; [exact Hlen|]. split.
  - rewrite SourcesProps.max_articles_is_50.
    rewrite PyStrProps.slice_to_nonneg by lia.
    apply firstn_all2. destruct (class s); cbn in *; lia.
  - unfold _scrape_html. cbv zeta. split.
    + destruct (class s); cbn; lia.
    + destruct (class s); cbn [snd List.map];
        repeat (apply List.Forall_cons;
                [first [eexists; reflexivity
                       |exists []; rewrite app_nil_r; reflexivity]|]);
        apply List.Forall_nil.
Qed.

End WithWeb.

End SourcesMore.

(* --------------------------------------------------------------------- *)
(** ** More on the orchestrator                                          *)
(* --------------------------------------------------------------------- *)

Module OrchestratorMore.
Import PyStr Py ArticleModel Sources Orchestrator Samples.

Section Run.
Context {S : Type} `{Scrapes S}.

Lemma sublist_length_le {A} (l k : list A) :
  sublist l k -> (length l <= length k)%nat.
Proof. induction 1; simpl; lia. Qed.

(** The list of a deduplicated collection, from the loop. *)
Lemma deduplicate_result (c : ArticleCollection) :
  List.NoDup (ids (articles (deduplicate c)))
  /\ (forall i, In i (ids (articles (deduplicate c)))
                <-> In i (ids (articles c)))
  /\ (length (articles (deduplicate c)) <= length (articles c))%nat
  /\ total_count (deduplicate c)
     = Z.of_nat (length (articles (deduplicate c))).
Proof.
  destruct (ArticleMore.dedup_loop_result (articles c) ∅) as (Hnd & Hin & Hsub).
  change (articles (deduplicate c)) with (dedup_loop ∅ [] (articles c)).
  split; [exact Hnd|]. split.
  - intros i. rewrite Hin. split; [tauto|]. intros Hi. split; [exact Hi|].
    set_solver.
  - split; [apply sublist_length_le, Hsub|reflexivity].
Qed.

(** X11.  A run of [scrape_all] whose scrapers were created, from any
    state: it returns the list of the collection, in which no id occurs
    twice and whose ids are those of the collection before and of the
    articles the scrapers returned; [total_articles] is the length of
    that list; the [by_region] counts are the numbers of articles
    returned for the region, counted before duplicates are dropped, so
    the list is never longer than the old collection plus the two
    counts; [errors] is left as it was, and the start and end times are
    set. *)
Theorem scrape_all_summary (ks us : list S) (t0 t1 : Z) (ns : NewsScraper) :
  exists ns',
    scrape_all (Ok ks) (Ok us) t0 t1 ns = (Ok (articles (collection ns')), ns')
    /\ List.NoDup (ids (articles (collection ns')))
    /\ (forall i, In i (ids (articles (collection ns')))
                  <-> In i (ids (articles (collection ns)))
                      \/ In i (ids (returned ks)) \/ In i (ids (returned us)))
    /\ total_articles (stats ns')
       = Z.of_nat (length (articles (collection ns')))
    /\ by_region (stats ns') !! lit "kenya"
       = Some (Z.of_nat (length (returned ks)))
    /\ by_region (stats ns') !! lit "usa"
       = Some (Z.of_nat (length (returned us)))
    /\ (length (articles (collection ns'))
        <= length (articles (collection ns))
           + length (returned ks) + length (returned us))%nat
    /\ errors (stats ns') = errors (stats ns)
    /\ start_time (stats ns') = Some t0
    /\ end_time (stats ns') = Some t1.
Proof.
  set (c := deduplicate (add_articles (collection ns)
                           (returned ks ++ returned us))).
  destruct (deduplicate_result (add_articles (collection ns)
                                  (returned ks ++ returned us)))
    as (Hnd & Hin & Hlen & Htot).
  fold c in Hnd, Hin, Hlen, Htot.
  exists {| collection := c;
            stats :=
              set_end t1
                (set_total (total_count c)
                   (set_by_region (lit "usa")
                      (Z.of_nat (length (returned us)))
                      (set_by_region (lit "kenya")
                         (Z.of_nat (length (returned ks)))
                         (set_start t0 (stats ns)))));
            logged := (logged ns ++ raised ks) ++ raised us |}.
  split.
  { unfold scrape_all, scrape_region_news, mbind, try_except, modify_stats,
      modify_collection, log_errors, get_state, ret.
    rewrite !OrchestratorProps.scrape_loop_spec. reflexivity. }
  cbn [collection stats set_end set_total set_by_region set_start
       total_articles by_region errors start_time end_time].
  split; [exact Hnd|]. split.
  { intros i. rewrite Hin, ArticleMore.add_articles_ids, ArticleMore.ids_app,
      in_app_iff. tauto. }
  split; [exact Htot|]. split.
  { rewrite lookup_insert_ne by discriminate. apply lookup_insert_eq. }
  split; [apply lookup_insert_eq|]. split.
  { destruct (ArticleMore.add_articles_prefix (returned ks ++ returned us)
                (collection ns)) as (more & Heq & Hmore).
    rewrite Heq, !length_app in Hlen. rewrite length_app in Hmore. lia. }
  repeat split.
Qed.

Lemma scrape_region_run (region : str) (scrapers : list S) (ns : NewsScraper) :
  scrape_region region (Ok scrapers) ns
  = (Ok (returned scrapers),
     {| collection := add_articles (collection ns) (returned scrapers);
        stats := set_by_region region (Z.of_nat (length (returned scrapers)))
                   (stats ns);
        logged := logged ns ++ raised scrapers |}).
Proof.
  unfold scrape_region, scrape_region_news, mbind, modify_stats,
    modify_collection, log_errors, ret.
  rewrite OrchestratorProps.scrape_loop_spec. reflexivity.
Qed.

(** X12.  [scrape_region] on a collection without duplicate ids:
    the region name is compared in lower case, and an unknown region
    returns the empty list and changes neither the collection nor the
    counts; for a known region the articles the scrapers returned are
    returned as they are, their number is stored in [by_region] under
    the region name as it was given, the collection still has no
    duplicate id and holds the ids it had and those returned; and
    [total_articles] and [errors] are never touched. *)
Theorem scrape_region_effect (region : str) (ks us : list S)
  (ns : NewsScraper) :
  List.NoDup (ids (articles (collection ns))) ->
  exists arts ns',
    scrape_region_by region (Ok ks) (Ok us) ns = (Ok arts, ns')
    /\ arts = (if lower_is (lit "kenya") region then returned ks
               else if lower_is (lit "usa") region then returned us
               else [])
    /\ by_region (stats ns')
       = (if lower_is (lit "kenya") region || lower_is (lit "usa") region
          then <[ region := Z.of_nat (length arts) ]> (by_region (stats ns))
          else by_region (stats ns))
    /\ total_articles (stats ns') = total_articles (stats ns)
    /\ errors (stats ns') = errors (stats ns)
    /\ List.NoDup (ids (articles (collection ns')))
    /\ (forall i, In i (ids (articles (collection ns')))
                  <-> In i (ids (articles (collection ns))) \/ In i (ids arts))
    /\ (lower_is (lit "kenya") region = false ->
        lower_is (lit "usa") region = false ->
        collection ns' = collection ns).
Proof.
  intros Hnd. unfold scrape_region_by.
  destruct (lower_is (lit "kenya") region) eqn:Hk;
    [|destruct (lower_is (lit "usa") region) eqn:Hu].
  - rewrite scrape_region_run. do 2 eexists. split; [reflexivity|].
    cbn [stats collection orb]. repeat split;
      try (apply ArticleMore.add_articles_nodup, Hnd);
      try apply ArticleMore.add_articles_ids; discriminate.
  - rewrite scrape_region_run. do 2 eexists. split; [reflexivity|].
    cbn [stats collection orb]. repeat split;
      try (apply ArticleMore.add_articles_nodup, Hnd);
      try apply ArticleMore.add_articles_ids; discriminate.
  - do 2 eexists. split; [reflexivity|]. cbn [stats collection orb].
    repeat split; try exact Hnd; cbn; tauto.
Qed.

(** X10.  In the loop of [scrape_kenya_news] and [scrape_usa_news], a
    scraper whose [scrape] raises costs nothing but its own articles:
    the articles gathered are those gathered without that scraper, and
    its exception is logged in its place among the others. *)
Theorem scrape_loop_isolation (before after : list S) (s : S) (e : exn) :
  call_scrape s = Raise e ->
  fst (scrape_loop (before ++ s :: after))
  = fst (scrape_loop (before ++ after))
  /\ snd (scrape_loop (before ++ s :: after))
     = snd (scrape_loop before) ++ e :: snd (scrape_loop after).
Proof.
  intros He. rewrite !OrchestratorProps.scrape_loop_spec. cbn [fst snd].
  unfold returned, raised. rewrite !flat_map_app. cbn [flat_map].
  rewrite He. split; reflexivity.
Qed.

End Run.

Lemma scrape_region_effect_witness :
  List.NoDup (ids (articles (collection (new_scraper 0))))
  /\ exists arts ns',
       @scrape_region_by _ outcome_scrapes (lit "Kenya") (Ok six_sources)
         (Ok []) (new_scraper 0) = (Ok arts, ns')
       /\ length arts = 5%nat
       /\ by_region (stats ns') !! lit "Kenya" = Some 5%Z
       /\ by_region (stats ns') !! lit "kenya" = None
       /\ total_articles (stats ns') = 0%Z.
Proof.
  assert (Hnd : List.NoDup (ids (articles (collection (new_scraper 0)))))
    by constructor.
  split; [exact Hnd|].
  destruct (@scrape_region_effect _ outcome_scrapes (lit "Kenya") six_sources
              [] (new_scraper 0) Hnd)
    as (arts & ns' & Hrun & Harts & Hby & Htot & _).
  exists arts, ns'. split; [exact Hrun|].
  change (lower_is (lit "kenya") (lit "Kenya")) with true in Harts, Hby.
  cbn [orb] in Hby. subst arts.
  split; [reflexivity|]. rewrite Hby.
  split; [apply lookup_insert_eq|].
  split; [|exact Htot].
  rewrite lookup_insert_ne by discriminate. reflexivity.
Defined.

Lemma scrape_loop_isolation_witness :
  @call_scrape _ outcome_scrapes (Raise (Error (lit "connection reset")))
  = Raise (Error (lit "connection reset"))
  /\ fst (@scrape_loop _ outcome_scrapes six_sources)
     = fst (@scrape_loop _ outcome_scrapes
              ([Ok (page_article "1"); Ok (page_article "2")]
                 ++ [Ok (page_article "3"); Ok (page_article "4");
                     Ok (page_article "5")])).
Proof.
  split; [reflexivity|].
  apply (@scrape_loop_isolation _ outcome_scrapes
           [Ok (page_article "1"); Ok (page_article "2")]
           [Ok (page_article "3"); Ok (page_article "4");
            Ok (page_article "5")]
           (Raise (Error (lit "connection reset")))
           (Error (lit "connection reset"))).
  reflexivity.
Defined.

End OrchestratorMore.

(* --------------------------------------------------------------------- *)
(** ** More on the standalone script                                     *)
(* --------------------------------------------------------------------- *)

Module StandaloneMore.
Import PyStr Py Standalone.

Lemma scrape_sources_articles {Src A} (src_name : Src -> str)
  (scrape : Src -> result (list A)) (sources : list Src)
  (acc : list A * gmap (list N) Z * list exn) :
  fst (fst (scrape_sources src_name scrape sources acc))
  = fst (fst acc) ++ flat_map (fun src => match scrape src with
                                          | Ok l => l
                                          | Raise _ => []
                                          end) sources.
Proof.
  revert acc. induction sources as [|src rest IH]; intros [[arts by_source] errors].
  - simpl. symmetry. apply app_nil_r.
  - simpl. rewrite IH. destruct (scrape src); simpl.
    + rewrite <- app_assoc. reflexivity.
    + reflexivity.
Qed.

Lemma scrape_sources_counts {Src A} (src_name : Src -> str)
  (scrape : Src -> result (list A)) (sources : list Src)
  (acc : list A * gmap (list N) Z * list exn) (n : str) :
  (forall src, In src sources -> src_name src = n ->
               exists e, scrape src = Raise e) ->
  snd (fst (scrape_sources src_name scrape sources acc)) !! n
  = snd (fst acc) !! n.
Proof.
  revert acc. induction sources as [|src rest IH];
    intros [[arts by_source] errors] Hn; [reflexivity|].
  simpl. rewrite IH by (intros x Hx; apply Hn; now right).
  destruct (scrape src) as [l|e] eqn:Hs; [|reflexivity].
  simpl. apply lookup_insert_ne. intros Heq.
  destruct (Hn src (or_introl eq_refl) Heq) as [e He]. congruence.
Qed.

Lemma scrape_sources_counted {Src A} (src_name : Src -> str)
  (scrape : Src -> result (list A)) (sources : list Src)
  (acc : list A * gmap (list N) Z * list exn) (n : str) :
  is_Some (snd (fst acc) !! n)
  \/ (exists src l, In src sources /\ src_name src = n /\ scrape src = Ok l) ->
  is_Some (snd (fst (scrape_sources src_name scrape sources acc)) !! n).
Proof.
  revert acc. induction sources as [|src rest IH];
    intros [[arts by_source] errors] Hn.
  - destruct Hn as [Hn|(src & l & [] & _)]. exact Hn.
  - simpl. apply IH. destruct (scrape src) as [l|e] eqn:Hs; simpl.
    + destruct (decide (src_name src = n)) as [Heq|Hne].
      * left. rewrite Heq, lookup_insert_eq. eauto.
      * rewrite lookup_insert_ne by exact Hne.
        destruct Hn as [Hn|(x & l' & [->|Hin] & Hx & Hl)];
          [now left|congruence|right; eauto].
    + destruct Hn as [Hn|(x & l' & [->|Hin] & Hx & Hl)];
        [now left|congruence|right; eauto].
Qed.

Lemma classic_counted {Src A} (src_name : Src -> str)
  (scrape : Src -> result (list A)) (sources : list Src) (n : str) :
  (exists src l, In src sources /\ src_name src = n /\ scrape src = Ok l)
  \/ (forall src, In src sources -> src_name src = n ->
                  exists e, scrape src = Raise e).
Proof.
  induction sources as [|src rest [(x & l & Hin & Hx & Hl)|Hall]].
  - right. intros src [].
  - left. exists x, l. split; [now right|split; assumption].
  - destruct (decide (src_name src = n)) as [Heq|Hne].
    + destruct (scrape src) as [l|e] eqn:Hs.
      * left. exists src, l. split; [now left|split; assumption].
      * right. intros x [<-|Hin] Hx; [eauto|apply Hall; assumption].
    + right. intros x [<-|Hin] Hx; [contradiction|apply Hall; assumption].
Qed.

(** X13.  The loop of the standalone script over the sources, started
    with nothing gathered: the articles are those of the sources whose
    scrape returns, in order; [errors] holds one entry for every source
    whose scrape raises, in order; and a source name has a [by_source]
    count exactly when some source of that name returned. *)
Theorem scrape_sources_outcome {Src A} (src_name : Src -> str)
  (scrape : Src -> result (list A)) (sources : list Src) :
  fst (fst (scrape_sources src_name scrape sources ([], ∅, [])))
  = flat_map (fun src => match scrape src with
                         | Ok l => l
                         | Raise _ => []
                         end) sources
  /\ snd (scrape_sources src_name scrape sources ([], ∅, []))
     = flat_map (fun src => match scrape src with
                            | Ok _ => []
                            | Raise e => [e]
                            end) sources
  /\ (forall n,
        is_Some (snd (fst (scrape_sources src_name scrape sources
                             ([], ∅, []))) !! n)
        <-> exists src l, In src sources /\ src_name src = n
                          /\ scrape src = Ok l).
Proof.
  split; [rewrite scrape_sources_articles; reflexivity|].
  split; [rewrite StandaloneProps.scrape_sources_errors; reflexivity|].
  intros n. split.
  - intros Hsome.
    destruct (classic_counted src_name scrape sources n) as [Hex|Hall];
      [exact Hex|].
    rewrite scrape_sources_counts in Hsome by exact Hall.
    simpl in Hsome. rewrite lookup_empty in Hsome.
    destruct Hsome; discriminate.
  - intros Hex. apply scrape_sources_counted. now right.
Qed.

End StandaloneMore.

(* --------------------------------------------------------------------- *)
(** ** More on the CSV exporter                                          *)
(* --------------------------------------------------------------------- *)

Module CsvMore.
Import PyStr Py ArticleModel CsvExporter.

(** X14.  [append] to a file that does not exist writes what [export]
    writes; appending to an exported file gives the export of the two
    lists one after the other, and two appends are one append of the
    concatenation; the file grows by one line per article (and the
    header line when it did not exist); every exported line has the
    twelve cells of the header; and appending to a file that exists but
    is empty writes no header line: its first line is the first
    article. *)
Theorem append_composes (l1 l2 : list Article)
  (file : option (list (list str))) :
  append None l1 = export l1
  /\ Forall (fun line => length line = length HEADERS) (export l1)
  /\ append (Some (export l1)) l2 = export (l1 ++ l2)
  /\ append (Some (append file l1)) l2 = append file (l1 ++ l2)
  /\ (length (append file l1)
      = match file with
        | None => 1
        | Some content => length content
        end + length l1)%nat
  /\ (forall a, hd_error (append (Some []) (a :: l1))
                = Some (writerow (_article_to_row a))).
Proof.
  split; [reflexivity|]. split.
  { unfold export. apply List.Forall_cons; [reflexivity|].
    apply List.Forall_forall. intros line Hin.
    apply in_map_iff in Hin as (a & <- & _). reflexivity. }
  split.
  { unfold append, export. cbv zeta. rewrite List.map_app. reflexivity. }
  split.
  { unfold append. cbv zeta. rewrite List.map_app.
    destruct file as [content|]; [symmetry; apply app_assoc|reflexivity]. }
  split.
  { unfold append. cbv zeta. destruct file as [content|].
    - rewrite length_app, length_map. reflexivity.
    - cbn [length]. rewrite length_map. reflexivity. }
  intros a. reflexivity.
Qed.

End CsvMore.
